(** * IntelliFinance: the transaction categorization engine

    A shallow embedding of [backend/app/ml/transaction_categorizer.py]:
    the text preprocessing, the trainable [TransactionCategorizer] with its
    pickle-backed model store, the zero-shot [HuggingFaceCategorizer], and the
    module-level decision chain [categorize_transaction].

    Python strings are modelled by [string] (the ASCII fragment of [str]),
    Python floats by the primitive binary64 floats, exceptions by an explicit
    [result] type, attribute mutation by state passing, and the third-party
    libraries (scikit-learn, transformers, pickle) by an interface [Libs]
    over which every theorem is quantified.

    The limits of the model: [str.lower] and [str.strip] are modelled on
    ASCII texts only; a library call ends by returning or by an
    [Exception], never by [SystemExit] or [KeyboardInterrupt]; the import
    statements at the head of the module are taken to have succeeded; and
    the file system has no regular file among the ancestors of a
    directory to create. *)

From Stdlib Require Import String Ascii List Bool Arith Lia Floats.
From stdpp Require Import base option gmap strings.
Import ListNotations.

Set Warnings "-inexact-float".
Local Open Scope list_scope.
Local Open Scope string_scope.

(** ** Python [str] methods used by the module *)

Module PyStr.

(** [c.lower()] on one ASCII character: A to Z are lowered, every other
    character stays. *)
Definition lower_ascii (c : ascii) : ascii :=
  let n := nat_of_ascii c in
  if (65 <=? n)%nat && (n <=? 90)%nat then ascii_of_nat (n + 32) else c.

(** [s.lower()] on an ASCII text, character by character; the length is
    kept.  Beyond ASCII [str.lower] lowers further letters, and some of
    them into more than one code point (U+0130 becomes two), which this
    function does not follow. *)
Fixpoint lower (s : string) : string :=
  match s with
  | EmptyString => EmptyString
  | String c s' => String (lower_ascii c) (lower s')
  end.

(** The ASCII characters [str.strip()] removes: TAB, LF, VT, FF, CR,
    FS, GS, RS, US and the space.  The spaces beyond ASCII that
    [str.strip()] removes as well (U+0085, U+00A0 and the other Unicode
    spaces) are not covered. *)
Definition is_space (c : ascii) : bool :=
  let n := nat_of_ascii c in
  ((9 <=? n)%nat && (n <=? 13)%nat)
  || ((28 <=? n)%nat && (n <=? 31)%nat)
  || (n =? 32)%nat.

Definition is_empty (s : string) : bool :=
  match s with EmptyString => true | String _ _ => false end.

(** [s.lstrip()] *)
Fixpoint lstrip (s : string) : string :=
  match s with
  | EmptyString => EmptyString
  | String c s' => if is_space c then lstrip s' else s
  end.

(** [s.rstrip()] *)
Fixpoint rstrip (s : string) : string :=
  match s with
  | EmptyString => EmptyString
  | String c s' =>
      let r := rstrip s' in
      if is_space c && is_empty r then EmptyString else String c r
  end.

(** [s.strip()] *)
Definition strip (s : string) : string := rstrip (lstrip s).

(** The scan of [s.replace(old, new)] for a non-empty [old]: occurrences
    are found left to right and do not overlap; [skip] counts the
    characters of the current occurrence still to be dropped. *)
Fixpoint replace_scan (skip : nat) (old new s : string) : string :=
  match s with
  | EmptyString => EmptyString
  | String c s' =>
      match skip with
      | S k => replace_scan k old new s'
      | O =>
          if String.prefix old s
          then new ++ replace_scan (String.length old - 1) old new s'
          else String c (replace_scan 0 old new s')
      end
  end.

(** [new.join(s)] with [new] also put in front and behind: what
    [s.replace("", new)] returns. *)
Fixpoint interleave (new s : string) : string :=
  match s with
  | EmptyString => new
  | String c s' => new ++ String c (interleave new s')
  end.

(** [s.replace(old, new)] *)
Definition replace (old new s : string) : string :=
  if is_empty old then interleave new s else replace_scan 0 old new s.

(** Python truthiness of an optional string: [None] and [""] are false. *)
Definition truthy (s : option string) : bool :=
  match s with
  | None => false
  | Some t => negb (is_empty t)
  end.

End PyStr.

(** ** Text preprocessing ([TransactionCategorizer.preprocess_text]) *)

(** The list [remove_terms] of the method, in its order. *)
Definition remove_terms : list string :=
  [ "payment"; "purchase"; "transaction"; "debit"; "credit";
    "pos"; "atm"; "withdrawal"; "deposit"; "transfer" ].

(** The [for term in remove_terms] loop, run over any list of terms. *)
Definition remove_each (terms : list string) (text : string) : string :=
  fold_left (fun text term => PyStr.replace term "" text) terms text.

Definition preprocess_text (description : string) (merchant : option string)
  : string :=
  let text := PyStr.strip (PyStr.lower description) in
  let text :=
    match merchant with
    | Some m =>
        if PyStr.truthy merchant
        then text ++ " " ++ PyStr.strip (PyStr.lower m)
        else text
    | None => text
    end in
  let text := remove_each remove_terms text in
  PyStr.strip text.

(** ** The preprocessing reference of the specification

    The reference function is written after the words of the
    specification, independently of the loop above: a term is deleted by
    cutting out its leftmost occurrence and going on behind it. *)

(** The stop-list as the specification gives it. *)
Definition spec_stop_terms : list string :=
  [ "payment"; "purchase"; "debit"; "credit"; "pos"; "atm"; "withdrawal";
    "deposit"; "transfer" ].

(** [s[n:]] *)
Fixpoint drop (n : nat) (s : string) : string :=
  match n, s with
  | O, _ => s
  | S _, EmptyString => EmptyString
  | S k, String _ s' => drop k s'
  end.

Fixpoint cut_all (fuel : nat) (term text : string) : string :=
  match fuel with
  | O => text
  | S n =>
      match String.index 0 term text with
      | None => text
      | Some i =>
          String.substring 0 i text
          ++ cut_all n term (drop (i + String.length term) text)
      end
  end.

(** Every occurrence of [term] deleted as a literal substring. *)
Definition delete_occurrences (term text : string) : string :=
  if PyStr.is_empty term then text
  else cut_all (String.length text) term text.

Fixpoint delete_terms (terms : list string) (text : string) : string :=
  match terms with
  | []%list => text
  | (term :: rest)%list => delete_terms rest (delete_occurrences term text)
  end.

(** Lowercase and strip the description, append the lowercased and stripped
    merchant name after a space when a merchant is present, delete the
    stop-terms, strip the result. *)
Definition preprocess_reference (terms : list string) (description : string)
    (merchant : option string) : string :=
  let d := PyStr.strip (PyStr.lower description) in
  let joined :=
    match merchant with
    | None => d
    | Some m =>
        if PyStr.is_empty m then d
        else d ++ " " ++ PyStr.strip (PyStr.lower m)
    end in
  PyStr.strip (delete_terms terms joined).

(** ** Exceptions, results and floats *)

(** The instances of [Exception] that reach the module's handlers.  The
    first group is raised by the module's own statements and by the Python
    built-ins it calls, the second by the file system, and [LibraryError]
    stands for any [Exception] escaping scikit-learn, transformers or
    pickle, whatever its class.  What derives from [BaseException] alone
    ([KeyboardInterrupt], [SystemExit]) passes every handler of the
    module, which catch [Exception] only.  No statement of the module
    raises it, but a library call can end that way: unpickling runs the
    code an artifact names.  Such an end is outside the model. *)
Inductive exn : Type :=
| ValueError (msg : string)
| KeyError (key : string)
| TypeError (msg : string)
| IndexError (msg : string)
| FileNotFoundError (path : string)
| FileExistsError (path : string)
| IsADirectoryError (path : string)
| LibraryError (msg : string).

(** [str(e)], as interpolated by the handlers' f-strings. *)
Definition exn_str (e : exn) : string :=
  match e with
  | ValueError msg => msg
  | KeyError key => "'" ++ key ++ "'"
  | TypeError msg => msg
  | IndexError msg => msg
  | FileNotFoundError path =>
      "[Errno 2] No such file or directory: '" ++ path ++ "'"
  | FileExistsError path => "[Errno 17] File exists: '" ++ path ++ "'"
  | IsADirectoryError path => "[Errno 21] Is a directory: '" ++ path ++ "'"
  | LibraryError msg => msg
  end.

Inductive result (A : Type) : Type :=
| Ok (a : A)
| Raise (e : exn).
Arguments Ok {A} a.
Arguments Raise {A} e.

(** What a call into a third-party library does: it returns, or an
    [Exception] with the given message escapes it.  A call that ends in
    [SystemExit] or [KeyboardInterrupt], or that does not end, has no
    outcome here. *)
Inductive outcome (A : Type) : Type :=
| Returns (a : A)
| Fails (msg : string).
Arguments Returns {A} a.
Arguments Fails {A} msg.

(** The outcome of a library call as seen by the calling statement: a
    failure is an [Exception], which [except Exception] catches. *)
Definition lift {A : Type} (o : outcome A) : result A :=
  match o with
  | Returns a => Ok a
  | Fails msg => Raise (LibraryError msg)
  end.

(** Sequencing of two steps the first of which may raise. *)
Definition and_then {A B : Type} (r : result A) (k : A -> result B)
  : result B :=
  match r with
  | Ok a => k a
  | Raise e => Raise e
  end.

(** [a > b] on Python floats. *)
Definition py_gt (a b : float) : bool := PrimFloat.ltb b a.

(** [seq[0]] *)
Definition index0 {A : Type} (seq : list A) : result A :=
  match seq with
  | x :: _ => Ok x
  | [] => Raise (IndexError "list index out of range")
  end.

(** The built-in [max(iterable)]: the first element is kept until a later
    one compares greater. *)
Definition py_max (xs : list float) : result float :=
  match xs with
  | [] => Raise (ValueError "max() arg is an empty sequence")
  | x :: rest =>
      Ok (fold_left (fun best y => if py_gt y best then y else best) rest x)
  end.

(** ** State and exceptions *)

(** A statement run in a state [S]: it returns or raises, and leaves a
    state behind in both cases. *)
Definition M (S A : Type) : Type := S -> result A * S.

Definition ret {S A : Type} (a : A) : M S A := fun s => (Ok a, s).

Definition raise {S A : Type} (e : exn) : M S A := fun s => (Raise e, s).

Definition bind {S A B : Type} (c : M S A) (k : A -> M S B) : M S B :=
  fun s =>
    match c s with
    | (Ok a, s') => k a s'
    | (Raise e, s') => (Raise e, s')
    end.

(** [try: body / except Exception as e: handler(e)] *)
Definition try_except {S A : Type} (body : M S A) (handler : exn -> M S A)
  : M S A :=
  fun s =>
    match body s with
    | (Ok a, s') => (Ok a, s')
    | (Raise e, s') => handler e s'
    end.

(** A computation that does not touch the state. *)
Definition pure {S A : Type} (r : result A) : M S A := fun s => (r, s).

Definition get {S : Type} : M S S := fun s => (Ok s, s).

Definition modify {S : Type} (f : S -> S) : M S unit := fun s => (Ok tt, f s).

Notation "x <- c ;; k" := (bind c (fun x => k))
  (at level 100, c at next level, right associativity).
Notation "c ;;; k" := (bind c (fun _ => k))
  (at level 100, right associativity).

(** ** The category enumeration *)

(** [TransactionCategory] is declared in [app/models/transaction.py], which
    is not among the sources.  The module reads the [.value] of twelve named
    members and iterates over the [.value] of all members, so the
    enumeration is a parameter: the twelve values, the list of all values,
    and the fact that a named member is a member. *)
Class TransactionCategory : Type := {
  GROCERIES : string;
  RESTAURANTS : string;
  GAS : string;
  GENERAL_MERCHANDISE : string;
  UTILITIES : string;
  MOVIES : string;
  MEDICAL : string;
  BANK_FEES : string;
  TRAVEL : string;
  EDUCATION : string;
  CHARITY : string;
  UNCATEGORIZED : string;
  category_values : list string;
  named_members :
    Forall (fun v => In v category_values)
      [ GROCERIES; RESTAURANTS; GAS; GENERAL_MERCHANDISE; UTILITIES; MOVIES;
        MEDICAL; BANK_FEES; TRAVEL; EDUCATION; CHARITY; UNCATEGORIZED ]
}.

(** ** The third-party libraries *)

Definition bytes : Type := list Init.Byte.byte.

(** The dictionary [save_model] pickles. *)
Record model_data (V C : Type) : Type := {
  md_vectorizer : V;
  md_classifier : C;
  md_is_trained : bool;
  md_categories : list string
}.
Arguments md_vectorizer {V C} _.
Arguments md_classifier {V C} _.
Arguments md_is_trained {V C} _.
Arguments md_categories {V C} _.

(** What [pickle.load] can hand back to [load_model]: a dictionary, in which
    each of the four keys may be missing, or some other object. *)
Inductive unpickled (V C : Type) : Type :=
| Dict (vectorizer : option V) (classifier : option C)
       (is_trained : option bool) (categories : option (list string))
| NotADict.
Arguments Dict {V C} _ _ _ _.
Arguments NotADict {V C}.

Definition as_dict {V C : Type} (d : model_data V C) : unpickled V C :=
  Dict (Some (md_vectorizer d)) (Some (md_classifier d))
       (Some (md_is_trained d)) (Some (md_categories d)).

(** The result dictionary of a zero-shot pipeline call. *)
Record zero_shot_output : Type := {
  labels : list string;
  scores : list float
}.

(** scikit-learn, transformers and pickle, as far as the module calls them.
    Methods that mutate their receiver return its new state, also when
    they fail. *)
Class Libs : Type := {
  (* sklearn.feature_extraction.text.TfidfVectorizer *)
  TfidfVectorizer : Type;
  csr_matrix : Type;
  ndarray : Type;
  TfidfVectorizer_new :
    forall (max_features : nat) (stop_words : string)
           (ngram_range : nat * nat) (lowercase : bool), TfidfVectorizer;
  has_vocabulary : TfidfVectorizer -> bool;
  vectorizer_fit_transform :
    TfidfVectorizer -> list string -> outcome csr_matrix * TfidfVectorizer;
  vectorizer_transform : TfidfVectorizer -> list string -> outcome csr_matrix;
  toarray : csr_matrix -> outcome ndarray;
  array_len : ndarray -> nat;
  (* sklearn.ensemble.RandomForestClassifier *)
  RandomForestClassifier : Type;
  RandomForestClassifier_new :
    forall (n_estimators : nat) (random_state : nat) (class_weight : string),
      RandomForestClassifier;
  classifier_fit :
    RandomForestClassifier -> ndarray -> list string ->
    outcome unit * RandomForestClassifier;
  classifier_predict :
    RandomForestClassifier -> ndarray -> outcome (list string);
  classifier_predict_proba :
    RandomForestClassifier -> ndarray -> outcome (list (list float));
  (* sklearn.model_selection and sklearn.metrics *)
  train_test_split :
    forall (X : ndarray) (y : list string) (test_size : float)
           (random_state : nat) (stratify : list string),
      outcome (ndarray * ndarray * list string * list string);
  accuracy_score : list string -> list string -> outcome float;
  classification_report : list string -> list string -> outcome string;
  (* transformers *)
  Pipeline : Type;
  pipeline : forall (task : string) (model : string), outcome Pipeline;
  pipeline_call :
    Pipeline -> string -> list string -> outcome zero_shot_output;
  (* pickle *)
  pickle_dumps :
    model_data TfidfVectorizer RandomForestClassifier -> outcome bytes;
  pickle_loads :
    bytes -> outcome (unpickled TfidfVectorizer RandomForestClassifier)
}.

(** ** The file system behind the model store

    A disk holds regular files (path to contents) and directories.  Paths
    are compared as written; permissions, quotas and other faults of the
    operating system are outside the model. *)

Record Disk : Type := {
  files : gmap string bytes;
  dirs : gset string
}.

Record Env : Type := {
  disk : Disk;
  stdout : list string
}.

Module Os.

Definition sep : ascii := "/"%char.

(** [p[:p.rfind('/') + 1]] *)
Fixpoint upto_last_sep (p : string) : string :=
  match p with
  | EmptyString => EmptyString
  | String c p' =>
      let h := upto_last_sep p' in
      if PyStr.is_empty h
      then (if Ascii.eqb c sep then String sep EmptyString else EmptyString)
      else String c h
  end.

Fixpoint all_sep (p : string) : bool :=
  match p with
  | EmptyString => true
  | String c p' => Ascii.eqb c sep && all_sep p'
  end.

(** [p.rstrip('/')] *)
Fixpoint rstrip_sep (p : string) : string :=
  match p with
  | EmptyString => EmptyString
  | String c p' =>
      let r := rstrip_sep p' in
      if Ascii.eqb c sep && PyStr.is_empty r then EmptyString
      else String c r
  end.

(** [os.path.dirname(p)] (posixpath) *)
Definition dirname (p : string) : string :=
  let head := upto_last_sep p in
  if negb (PyStr.is_empty head) && negb (all_sep head)
  then rstrip_sep head
  else head.

(** [os.path.exists(p)] *)
Definition exists_ (p : string) (d : Disk) : bool :=
  bool_decide (is_Some (files d !! p)) || bool_decide (p ∈ dirs d).

(** [os.makedirs(name, exist_ok=True)], with the named directory
    recorded, which is the one [open_wb] looks for.  Only the full name is
    looked up among the files: a regular file among the ancestors of
    [name], where [os.makedirs] raises [NotADirectoryError], is not
    modelled. *)
Definition makedirs (name : string) (d : Disk) : result unit * Disk :=
  if PyStr.is_empty name then (Raise (FileNotFoundError name), d)
  else if bool_decide (is_Some (files d !! name))
  then (Raise (FileExistsError name), d)
  else (Ok tt, {| files := files d; dirs := {[ name ]} ∪ dirs d |}).

(** [open(p, 'wb')]: the file is created or truncated. *)
Definition open_wb (p : string) (d : Disk) : result unit * Disk :=
  if bool_decide (p ∈ dirs d) then (Raise (IsADirectoryError p), d)
  else if PyStr.is_empty p then (Raise (FileNotFoundError p), d)
  else if negb (PyStr.is_empty (dirname p))
          && negb (bool_decide (dirname p ∈ dirs d))
  then (Raise (FileNotFoundError p), d)
  else (Ok tt, {| files := <[ p := [] ]> (files d); dirs := dirs d |}).

(** Writing [b] to the file opened at [p] and closing it. *)
Definition write (p : string) (b : bytes) (d : Disk) : Disk :=
  {| files := <[ p := b ]> (files d); dirs := dirs d |}.

(** [open(p, 'rb')] and reading the whole file. *)
Definition read (p : string) (d : Disk) : result bytes :=
  match files d !! p with
  | Some b => Ok b
  | None =>
      if bool_decide (p ∈ dirs d) then Raise (IsADirectoryError p)
      else Raise (FileNotFoundError p)
  end.

End Os.

(** [print(line)] *)
Definition print_line (line : string) (e : Env) : Env :=
  {| disk := disk e; stdout := (stdout e ++ [line])%list |}.

(** ** The data frame of labelled transactions *)

(** One row; [row_merchant_name] is [None] when the frame has no
    [merchant_name] column. *)
Record Row : Type := {
  row_description : string;
  row_merchant_name : option string;
  row_category : string
}.

(** [row.get('merchant_name', '')] *)
Definition row_get_merchant_name (row : Row) : option string :=
  match row_merchant_name row with
  | Some m => Some m
  | None => Some ""
  end.

(** The dictionary [train] returns. *)
Record training_report : Type := {
  tr_accuracy : float;
  tr_classification_report : string;
  tr_training_samples : nat;
  tr_test_samples : nat
}.

(** The message of the [ValueError] raised by [train] on a short corpus. *)
Definition insufficient_data : exn :=
  ValueError "Need at least 50 transactions to train the model".

(** A statement that never raises the [ValueError] of [train]'s guard. *)
Definition guard_free {S A : Type} (c : M S A) : Prop :=
  forall s s', c s <> (Raise insufficient_data, s').

(** ** [class TransactionCategorizer] *)

Record TransactionCategorizer `{Libs} : Type := {
  model_path : string;
  vectorizer : TfidfVectorizer;
  classifier : RandomForestClassifier;
  is_trained : bool;
  categories : list string
}.

(** The state a method runs in: the receiver and the environment. *)
Record Frame `{Libs} : Type := {
  self : TransactionCategorizer;
  env : Env
}.

Section Categorizer.

Context `{L : Libs} `{E : TransactionCategory}.

Definition set_vectorizer (v : TfidfVectorizer) : M Frame unit :=
  modify (fun f =>
    {| self := {| model_path := model_path (self f);
                  vectorizer := v;
                  classifier := classifier (self f);
                  is_trained := is_trained (self f);
                  categories := categories (self f) |};
       env := env f |}).

Definition set_classifier (c : RandomForestClassifier) : M Frame unit :=
  modify (fun f =>
    {| self := {| model_path := model_path (self f);
                  vectorizer := vectorizer (self f);
                  classifier := c;
                  is_trained := is_trained (self f);
                  categories := categories (self f) |};
       env := env f |}).

Definition set_is_trained (b : bool) : M Frame unit :=
  modify (fun f =>
    {| self := {| model_path := model_path (self f);
                  vectorizer := vectorizer (self f);
                  classifier := classifier (self f);
                  is_trained := b;
                  categories := categories (self f) |};
       env := env f |}).

Definition set_categories (cs : list string) : M Frame unit :=
  modify (fun f =>
    {| self := {| model_path := model_path (self f);
                  vectorizer := vectorizer (self f);
                  classifier := classifier (self f);
                  is_trained := is_trained (self f);
                  categories := cs |};
       env := env f |}).

Definition print (line : string) : M Frame unit :=
  modify (fun f => {| self := self f; env := print_line line (env f) |}).

(** A file-system call, run on the frame's disk. *)
Definition on_disk {A : Type} (op : Disk -> result A * Disk) : M Frame A :=
  fun f =>
    let '(r, d) := op (disk (env f)) in
    (r, {| self := self f;
           env := {| disk := d; stdout := stdout (env f) |} |}).

(** *** [preprocess_text] is the function of the previous section. *)

(** *** [create_features] *)

Definition fit_transform (texts : list string) : M Frame csr_matrix :=
  fun f =>
    let '(o, v) := vectorizer_fit_transform (vectorizer (self f)) texts in
    (bind (set_vectorizer v) (fun _ => pure (lift o))) f.

Definition create_features (transactions_df : list Row) : M Frame ndarray :=
  let text_features :=
    map (fun row =>
           preprocess_text (row_description row) (row_get_merchant_name row))
        transactions_df in
  f <- get ;;
  tfidf_features <-
    (if negb (has_vocabulary (vectorizer (self f)))
     then fit_transform text_features
     else pure (lift (vectorizer_transform (vectorizer (self f))
                                           text_features))) ;;
  pure (lift (toarray tfidf_features)).

(** *** [save_model] *)

Definition current_model_data (c : TransactionCategorizer)
  : model_data TfidfVectorizer RandomForestClassifier :=
  {| md_vectorizer := vectorizer c;
     md_classifier := classifier c;
     md_is_trained := is_trained c;
     md_categories := categories c |}.

(** [with open(path, 'wb') as f: pickle.dump(data, f)]: when pickling
    fails the file stays as [open] left it. *)
Definition dump_to (path : string)
    (data : model_data TfidfVectorizer RandomForestClassifier)
  : M Frame unit :=
  on_disk (Os.open_wb path) ;;;
  b <- pure (lift (pickle_dumps data)) ;;
  on_disk (fun d => (Ok tt, Os.write path b d)).

Definition save_model : M Frame unit :=
  f <- get ;;
  if negb (is_trained (self f)) then ret tt
  else
    on_disk (Os.makedirs (Os.dirname (model_path (self f)))) ;;;
    dump_to (model_path (self f)) (current_model_data (self f)).

(** *** [load_model] *)

(** [model_data[key]] for the four keys. *)
Definition subscript {A : Type} (key : string) (field : option A)
    (model_data : unpickled TfidfVectorizer RandomForestClassifier)
  : result A :=
  match model_data with
  | NotADict => Raise (TypeError "object is not subscriptable")
  | Dict _ _ _ _ =>
      match field with
      | Some a => Ok a
      | None => Raise (KeyError key)
      end
  end.

Definition field_vectorizer
    (d : unpickled TfidfVectorizer RandomForestClassifier) :=
  match d with Dict v _ _ _ => v | NotADict => None end.
Definition field_classifier
    (d : unpickled TfidfVectorizer RandomForestClassifier) :=
  match d with Dict _ c _ _ => c | NotADict => None end.
Definition field_is_trained
    (d : unpickled TfidfVectorizer RandomForestClassifier) :=
  match d with Dict _ _ t _ => t | NotADict => None end.
Definition field_categories
    (d : unpickled TfidfVectorizer RandomForestClassifier) :=
  match d with Dict _ _ _ cs => cs | NotADict => None end.

(** [with open(path, 'rb') as f: pickle.load(f)] *)
Definition load_from (path : string)
  : M Frame (unpickled TfidfVectorizer RandomForestClassifier) :=
  b <- on_disk (fun d => (Os.read path d, d)) ;;
  pure (lift (pickle_loads b)).

Definition load_model : M Frame unit :=
  f <- get ;;
  if Os.exists_ (model_path (self f)) (disk (env f)) then
    try_except
      (model_data <- load_from (model_path (self f)) ;;
       v <- pure (subscript "vectorizer" (field_vectorizer model_data)
                            model_data) ;;
       set_vectorizer v ;;;
       c <- pure (subscript "classifier" (field_classifier model_data)
                            model_data) ;;
       set_classifier c ;;;
       t <- pure (subscript "is_trained" (field_is_trained model_data)
                            model_data) ;;
       set_is_trained t ;;;
       set_categories (default (categories (self f))
                               (field_categories model_data)))
      (fun e =>
         print ("Error loading model: " ++ exn_str e) ;;;
         set_is_trained false)
  else ret tt.

(** *** [__init__] *)

Definition TransactionCategorizer_init (path : string)
  : Env -> result TransactionCategorizer * Env :=
  fun e =>
    let fresh :=
      {| model_path := path;
         vectorizer := TfidfVectorizer_new 5000 "english" (1, 2) true;
         classifier := RandomForestClassifier_new 100 42 "balanced";
         is_trained := false;
         categories := category_values |} in
    match load_model {| self := fresh; env := e |} with
    | (Ok _, f) => (Ok (self f), env f)
    | (Raise x, f) => (Raise x, env f)
    end.

Definition default_model_path : string :=
  "models/transaction_categorizer.pkl".

(** *** [train] *)

Definition fit (X : ndarray) (y : list string) : M Frame unit :=
  fun f =>
    let '(o, c) := classifier_fit (classifier (self f)) X y in
    (bind (set_classifier c) (fun _ => pure (lift o))) f.

(** The statements of [train] after its guard. *)
Definition train_fit (transactions_df : list Row) : M Frame training_report :=
  X <- create_features transactions_df ;;
  let y := map row_category transactions_df in
  parts <- pure (lift (train_test_split X y 0.2%float 42 y)) ;;
  let '(X_train, X_test, y_train, y_test) := parts in
  fit X_train y_train ;;;
  f <- get ;;
  y_pred <- pure (lift (classifier_predict (classifier (self f)) X_test)) ;;
  accuracy <- pure (lift (accuracy_score y_test y_pred)) ;;
  set_is_trained true ;;;
  save_model ;;;
  report <- pure (lift (classification_report y_test y_pred)) ;;
  ret {| tr_accuracy := accuracy;
         tr_classification_report := report;
         tr_training_samples := array_len X_train;
         tr_test_samples := array_len X_test |}.

Definition train (transactions_df : list Row) : M Frame training_report :=
  if (length transactions_df <? 50)%nat
  then raise insufficient_data
  else train_fit transactions_df.

(** *** [predict] *)

(** [TransactionCategorizer.predict]; a call reads the receiver and leaves
    it as it is. *)
Definition predict (c : TransactionCategorizer) (description : string)
    (merchant_name : option string) (amount : option float)
  : result (string * float) :=
  if negb (is_trained c) then Ok (UNCATEGORIZED, 0.0%float)
  else
    let text := preprocess_text description merchant_name in
    and_then (lift (vectorizer_transform (vectorizer c) [text])) (fun sparse =>
    and_then (lift (toarray sparse)) (fun text_vector =>
    and_then (lift (classifier_predict (classifier c) text_vector)) (fun ps =>
    and_then (index0 ps) (fun prediction =>
    and_then (lift (classifier_predict_proba (classifier c) text_vector))
             (fun probas =>
    and_then (index0 probas) (fun row =>
    and_then (py_max row) (fun confidence =>
    Ok (prediction, confidence)))))))).

(** *** [retrain_with_feedback]: the body is [pass]. *)

Definition retrain_with_feedback (transaction_data : gmap string string)
    (correct_category : string) : M Frame unit :=
  ret tt.

End Categorizer.

(** ** [class HuggingFaceCategorizer] *)

Record HuggingFaceCategorizer `{Libs} : Type := {
  hf_classifier : Pipeline;
  hf_categories : list string
}.

(** A dictionary display [{k1: v1, k2: v2, ...}]: items are stored in
    order, a later item replacing an earlier one with the same key. *)
Definition dict_of (items : list (string * string)) : gmap string string :=
  fold_left (fun m kv => <[ fst kv := snd kv ]> m) items ∅.

Section Fallback.

Context `{L : Libs} `{E : TransactionCategory}.

Definition candidate_labels : list string :=
  [ "groceries and food"; "restaurants and dining";
    "transportation and gas"; "shopping and retail"; "utilities and bills";
    "entertainment"; "healthcare and medical"; "financial services";
    "travel"; "education"; "charity and donations"; "other expenses" ].

Definition HuggingFaceCategorizer_init : result HuggingFaceCategorizer :=
  and_then
    (lift (pipeline "zero-shot-classification" "facebook/bart-large-mnli"))
    (fun p => Ok {| hf_classifier := p; hf_categories := candidate_labels |}).

Definition category_mapping : gmap string string :=
  dict_of
    [ ("groceries and food", GROCERIES);
      ("restaurants and dining", RESTAURANTS);
      ("transportation and gas", GAS);
      ("shopping and retail", GENERAL_MERCHANDISE);
      ("utilities and bills", UTILITIES);
      ("entertainment", MOVIES);
      ("healthcare and medical", MEDICAL);
      ("financial services", BANK_FEES);
      ("travel", TRAVEL);
      ("education", EDUCATION);
      ("charity and donations", CHARITY);
      ("other expenses", UNCATEGORIZED) ].

(** [HuggingFaceCategorizer.predict] *)
Definition hf_predict (h : HuggingFaceCategorizer) (description : string)
    (merchant_name : option string) : result (string * float) :=
  let text := description in
  let text :=
    match merchant_name with
    | Some m => if PyStr.truthy merchant_name then text ++ " at " ++ m
                else text
    | None => text
    end in
  and_then (lift (pipeline_call (hf_classifier h) text (hf_categories h)))
           (fun result =>
  and_then (index0 (labels result)) (fun predicted_label =>
  and_then (index0 (scores result)) (fun confidence =>
  let mapped_category :=
    default UNCATEGORIZED (category_mapping !! predicted_label) in
  Ok (mapped_category, confidence)))).

End Fallback.

(** ** The module globals and [categorize_transaction] *)

Record Program `{Libs} : Type := {
  _ml_categorizer : TransactionCategorizer;
  _hf_categorizer : option HuggingFaceCategorizer;
  console : list string
}.

Section Orchestrator.

Context `{L : Libs} `{E : TransactionCategory}.

(** The program after [print(line)]. *)
Definition logged (line : string) (p : Program) : Program :=
  {| _ml_categorizer := _ml_categorizer p;
     _hf_categorizer := _hf_categorizer p;
     console := (console p ++ [line])%list |}.

Definition say (line : string) : M Program unit := modify (logged line).

Definition set_hf (h : HuggingFaceCategorizer) : M Program unit :=
  modify (fun p =>
    {| _ml_categorizer := _ml_categorizer p;
       _hf_categorizer := Some h;
       console := console p |}).

(** The module-level statements of lines 273 and 274:
    [_ml_categorizer = TransactionCategorizer()] and
    [_hf_categorizer = None].  The import statements of lines 1 to 13
    (scikit-learn, transformers, joblib, the category enumeration), which
    run before them and can fail, are not modelled. *)
Definition import_module (e : Env) : result Program * Env :=
  match TransactionCategorizer_init default_model_path e with
  | (Ok c, e') =>
      (Ok {| _ml_categorizer := c;
             _hf_categorizer := None;
             console := stdout e' |},
       e')
  | (Raise x, e') => (Raise x, e')
  end.

(** Lines 285-288: [Some category] when the function returns there. *)
Definition primary_stage (description : string)
    (merchant_name : option string) : M Program (option string) :=
  p <- get ;;
  if is_trained (_ml_categorizer p) then
    r <- pure (predict (_ml_categorizer p) description merchant_name None) ;;
    let '(category, confidence) := r in
    if py_gt confidence 0.7%float then ret (Some category) else ret None
  else ret None.

(** Lines 291-296: the fallback classifier to use, or [None] when its
    construction failed and the function returns the default. *)
Definition lazy_fallback : M Program (option HuggingFaceCategorizer) :=
  p <- get ;;
  match _hf_categorizer p with
  | Some h => ret (Some h)
  | None =>
      try_except
        (h <- pure HuggingFaceCategorizer_init ;;
         set_hf h ;;;
         ret (Some h))
        (fun e =>
           say ("Could not initialize HuggingFace categorizer: "
                ++ exn_str e) ;;;
           ret None)
  end.

(** Lines 290-304. *)
Definition fallback_stage (description : string)
    (merchant_name : option string) : M Program string :=
  h <- lazy_fallback ;;
  match h with
  | None => ret UNCATEGORIZED
  | Some h =>
      r <- pure (hf_predict h description merchant_name) ;;
      let '(category, confidence) := r in
      if py_gt confidence 0.5%float then ret category
      else ret UNCATEGORIZED
  end.

(** The body of the outer [try]. *)
Definition categorize_body (description : string)
    (merchant_name : option string) : M Program string :=
  r <- primary_stage description merchant_name ;;
  match r with
  | Some category => ret category
  | None => fallback_stage description merchant_name
  end.

(** The outer [except Exception as e] clause. *)
Definition emergency_fallback (e : exn) : M Program string :=
  say ("Error in ML categorization: " ++ exn_str e) ;;;
  ret UNCATEGORIZED.

Definition categorize_transaction (description : string)
    (merchant_name : option string) (categories : option (list string))
  : M Program string :=
  try_except (categorize_body description merchant_name) emergency_fallback.

(** The function entered at line 290, the primary stage skipped. *)
Definition categorize_from_fallback (description : string)
    (merchant_name : option string) : M Program string :=
  try_except (fallback_stage description merchant_name) emergency_fallback.

(** The three ways a result comes about. *)
Inductive verdict (description : string) (merchant_name : option string)
    (p p' : Program) (v : string) : Prop :=
| by_default :
    v = UNCATEGORIZED -> verdict description merchant_name p p' v
| by_primary confidence :
    is_trained (_ml_categorizer p) = true ->
    predict (_ml_categorizer p) description merchant_name None
    = Ok (v, confidence) ->
    py_gt confidence 0.7%float = true ->
    p' = p ->
    verdict description merchant_name p p' v
| by_fallback h confidence :
    _hf_categorizer p' = Some h ->
    hf_predict h description merchant_name = Ok (v, confidence) ->
    py_gt confidence 0.5%float = true ->
    verdict description merchant_name p p' v.

End Orchestrator.

(** ** A small instance of the interfaces

    Used to run the model on concrete inputs: a vectorizer that only
    remembers whether it was fitted, a classifier that answers every row
    with one stored label and one stored row of probabilities, a pipeline
    that answers with a canned output, and a pickle with a real byte
    format. *)

Module Stub.

Definition enum : TransactionCategory.
Proof.
  refine
    {| GROCERIES := "groceries";
       RESTAURANTS := "restaurants";
       GAS := "gas";
       GENERAL_MERCHANDISE := "general_merchandise";
       UTILITIES := "utilities";
       MOVIES := "movies";
       MEDICAL := "medical";
       BANK_FEES := "bank_fees";
       TRAVEL := "travel";
       EDUCATION := "education";
       CHARITY := "charity";
       UNCATEGORIZED := "uncategorized";
       category_values :=
         [ "groceries"; "restaurants"; "gas"; "general_merchandise";
           "utilities"; "movies"; "medical"; "bank_fees"; "travel";
           "education"; "charity"; "uncategorized"; "rent"; "salary" ];
       named_members := _ |}.
  repeat (apply List.Forall_cons;
          [ simpl; repeat (first [ left; reflexivity | right ]) | ]).
  apply List.Forall_nil.
Defined.

(** How sure the classifier is of its label. *)
Inductive certainty : Type := Split | AtThreshold | JustAbove | Sure.

(** The classifier: its label and its certainty. *)
Record forest : Type := {
  answer : string;
  sure : certainty
}.

(** The row of class probabilities the classifier reports. *)
Definition probabilities (c : forest) : list float :=
  match sure c with
  | Split => [0.5%float; 0.5%float]
  | AtThreshold => [0.3%float; 0.7%float]
  | JustAbove => [0.29%float; 0.71%float]
  | Sure => [0.0%float; 1.0%float]
  end.

(** *** The byte format of the pickle *)

Definition byte_of_nat (n : nat) : Init.Byte.byte :=
  match Strings.Byte.of_nat n with
  | Some b => b
  | None => Init.Byte.xff
  end.

Definition enc_bool (b : bool) : bytes :=
  [if b then Init.Byte.x01 else Init.Byte.x00].

Definition enc_certainty (c : certainty) : bytes :=
  [match c with
   | Split => Init.Byte.x00
   | AtThreshold => Init.Byte.x01
   | JustAbove => Init.Byte.x02
   | Sure => Init.Byte.x03
   end].

Definition enc_str (s : string) : bytes :=
  (byte_of_nat (String.length s) :: list_byte_of_string s)%list.

Definition enc_strs (l : list string) : bytes :=
  (byte_of_nat (length l) :: concat (map enc_str l))%list.

Definition dec_bool (bs : bytes) : option (bool * bytes) :=
  match bs with
  | (b :: rest)%list =>
      match Strings.Byte.to_nat b with
      | 0%nat => Some (false, rest)
      | 1%nat => Some (true, rest)
      | _ => None
      end
  | []%list => None
  end.

Definition dec_certainty (bs : bytes) : option (certainty * bytes) :=
  match bs with
  | (b :: rest)%list =>
      match Strings.Byte.to_nat b with
      | 0%nat => Some (Split, rest)
      | 1%nat => Some (AtThreshold, rest)
      | 2%nat => Some (JustAbove, rest)
      | 3%nat => Some (Sure, rest)
      | _ => None
      end
  | []%list => None
  end.

Definition dec_str (bs : bytes) : option (string * bytes) :=
  match bs with
  | (b :: rest)%list =>
      let n := Strings.Byte.to_nat b in
      if (n <=? length rest)%nat
      then Some (string_of_list_byte (firstn n rest), skipn n rest)
      else None
  | []%list => None
  end.

Fixpoint dec_strs_n (n : nat) (bs : bytes) : option (list string * bytes) :=
  match n with
  | O => Some ([]%list, bs)
  | S k =>
      match dec_str bs with
      | Some (s, rest) =>
          match dec_strs_n k rest with
          | Some (l, rest') => Some ((s :: l)%list, rest')
          | None => None
          end
      | None => None
      end
  end.

Definition dec_strs (bs : bytes) : option (list string * bytes) :=
  match bs with
  | (b :: rest)%list => dec_strs_n (Strings.Byte.to_nat b) rest
  | []%list => None
  end.

Definition dumps (d : model_data bool forest) : outcome bytes :=
  Returns (enc_bool (md_vectorizer d)
           ++ enc_str (answer (md_classifier d))
           ++ enc_certainty (sure (md_classifier d))
           ++ enc_bool (md_is_trained d)
           ++ enc_strs (md_categories d))%list.

Definition loads (bs : bytes) : outcome (unpickled bool forest) :=
  match dec_bool bs with
  | Some (v, bs1) =>
      match dec_str bs1 with
      | Some (a, bs2) =>
          match dec_certainty bs2 with
          | Some (s, bs3) =>
              match dec_bool bs3 with
              | Some (t, bs4) =>
                  match dec_strs bs4 with
                  | Some (cs, []%list) =>
                      Returns (Dict (Some v)
                                    (Some {| answer := a; sure := s |})
                                    (Some t) (Some cs))
                  | _ => Fails "pickle data was truncated"
                  end
              | None => Fails "pickle data was truncated"
              end
          | None => Fails "pickle data was truncated"
          end
      | None => Fails "pickle data was truncated"
      end
  | None => Fails "Ran out of input"
  end.

(** *** The libraries; [hub] is what building the pipeline yields. *)

Definition libs (hub : outcome zero_shot_output) : Libs :=
  {| TfidfVectorizer := bool;
     csr_matrix := list string;
     ndarray := list string;
     TfidfVectorizer_new := fun _ _ _ _ => false;
     has_vocabulary := fun v => v;
     vectorizer_fit_transform := fun _ texts => (Returns texts, true);
     vectorizer_transform := fun v texts =>
       if v then Returns texts else Fails "The TF-IDF vectorizer is not fitted";
     toarray := fun m => Returns m;
     array_len := fun m => length m;
     RandomForestClassifier := forest;
     RandomForestClassifier_new := fun _ _ _ =>
       {| answer := ""; sure := Split |};
     classifier_fit := fun c X y =>
       match y with
       | (label :: _)%list => (Returns tt, {| answer := label; sure := Sure |})
       | []%list => (Fails "Found array with 0 sample(s)", c)
       end;
     classifier_predict := fun c X => Returns (map (fun _ => answer c) X);
     classifier_predict_proba := fun c X =>
       Returns (map (fun _ => probabilities c) X);
     train_test_split := fun X y _ _ _ =>
       let k := (length y / 5)%nat in
       Returns (skipn k X, firstn k X, skipn k y, firstn k y);
     accuracy_score := fun _ _ => Returns 1.0%float;
     classification_report := fun _ _ => Returns "precision recall f1-score";
     Pipeline := zero_shot_output;
     pipeline := fun _ _ => hub;
     pipeline_call := fun p _ _ => Returns p;
     pickle_dumps := dumps;
     pickle_loads := loads |}.

Definition offline : outcome zero_shot_output :=
  Fails "Can't load the model for 'facebook/bart-large-mnli'".

Definition online (label : string) (score : float)
  : outcome zero_shot_output :=
  Returns {| labels := [label]; scores := [score] |}.

(** A categorizer with the default path and the given classifier. *)
Definition categorizer (hub : outcome zero_shot_output) (trained : bool)
    (c : forest) : @TransactionCategorizer (libs hub) :=
  {| model_path := default_model_path;
     vectorizer := (trained : @TfidfVectorizer (libs hub));
     classifier := (c : @RandomForestClassifier (libs hub));
     is_trained := trained;
     categories := @category_values enum |}.

Definition program (hub : outcome zero_shot_output) (trained : bool)
    (c : forest) : @Program (libs hub) :=
  {| _ml_categorizer := categorizer hub trained c;
     _hf_categorizer := None;
     console := [] |}.

(** The instances used in the runs: no model hub; a pipeline sure of
    "restaurants and dining"; a pipeline exactly at the threshold. *)
Definition offline_libs : Libs := libs offline.

Definition dining : outcome zero_shot_output :=
  online "restaurants and dining" 0.82%float.

Definition dining_libs : Libs := libs dining.

Definition undecided : outcome zero_shot_output := online "travel" 0.5%float.

Definition undecided_libs : Libs := libs undecided.

Definition untrained : forest := {| answer := ""; sure := Split |}.

Definition empty_disk : Disk := {| files := ∅; dirs := ∅ |}.

Definition empty_env : Env := {| disk := empty_disk; stdout := [] |}.

(** A label that is no member of [values]: it is longer than each of
    them. *)
Definition outsider (values : list string) : string :=
  String "x"%char (String.concat "" values).

(** A trained categorizer at [path]. *)
Definition categorizer_at (path : string) (c : forest)
  : @TransactionCategorizer offline_libs :=
  {| model_path := path;
     vectorizer := (true : @TfidfVectorizer offline_libs);
     classifier := (c : @RandomForestClassifier offline_libs);
     is_trained := true;
     categories := @category_values enum |}.

(** A corpus of [n] copies of one labelled row. *)
Definition corpus (n : nat) : list Row :=
  repeat {| row_description := "STARBUCKS STORE #123";
            row_merchant_name := Some "Starbucks";
            row_category := "restaurants" |} n.

End Stub.

(** * Further parts of the module and its caller *)

(** ** [TransactionCategorizer.predict_batch] *)

(** A list comprehension [[f(x) for x in xs]] whose body may raise. *)
Fixpoint comprehension {A B : Type} (f : A -> result B) (xs : list A)
  : result (list B) :=
  match xs with
  | []%list => Ok []%list
  | (x :: rest)%list =>
      and_then (f x) (fun y =>
      and_then (comprehension f rest) (fun ys => Ok (y :: ys)%list))
  end.

Section Batch.

Context `{L : Libs} `{E : TransactionCategory}.

(** The dictionaries of [transactions] carry the same keys, so that
    [pd.DataFrame(transactions)] has one [Row] for each of them; a key that
    only some of them carry, which pandas fills with NaN, is outside the
    type. *)
Definition predict_batch (transactions : list Row)
  : M Frame (list (string * float)) :=
  f <- get ;;
  if negb (is_trained (self f))
  then ret (map (fun _ => (UNCATEGORIZED, 0.0%float)) transactions)
  else
    X <- create_features transactions ;;
    g <- get ;;
    predictions <- pure (lift (classifier_predict (classifier (self g)) X)) ;;
    probabilities <-
      pure (lift (classifier_predict_proba (classifier (self g)) X)) ;;
    confidences <- pure (comprehension py_max probabilities) ;;
    ret (combine predictions confidences).

End Batch.

(** ** The categorization calls of [sync_transactions]

    The endpoint calls [categorize_transaction] once for each transaction
    of the Plaid response that the database does not hold yet.  The calls
    are modelled, with the arguments the endpoint builds; the database is
    not. *)

(** The keys of a Plaid transaction that the calls read.  The outer
    [None] of the last two says that the key is missing, the inner one that
    its value is null. *)
Record plaid_transaction : Type := {
  pt_name : string;
  pt_merchant_name : option (option string);
  pt_category : option (option (list string))
}.

(** [plaid_transaction.get("merchant_name", "")] *)
Definition get_merchant_name (t : plaid_transaction) : option string :=
  match pt_merchant_name t with
  | Some v => v
  | None => Some ""
  end.

(** [plaid_transaction.get("category", [])] *)
Definition get_category (t : plaid_transaction) : option (list string) :=
  match pt_category t with
  | Some v => v
  | None => Some []%list
  end.

Section Sync.

Context `{L : Libs} `{E : TransactionCategory}.

Definition categorize_plaid (t : plaid_transaction) : M Program string :=
  categorize_transaction (pt_name t) (get_merchant_name t) (get_category t).

(** The calls for the new transactions of a response, in its order. *)
Fixpoint categorize_each (ts : list plaid_transaction)
  : M Program (list string) :=
  match ts with
  | []%list => ret []%list
  | (t :: rest)%list =>
      category <- categorize_plaid t ;;
      others <- categorize_each rest ;;
      ret (category :: others)%list
  end.

End Sync.

(** ** The text before the stop-terms are removed *)

(** The value of [text] in [preprocess_text] when the loop is entered. *)
Definition joined_text (description : string) (merchant : option string)
  : string :=
  let text := PyStr.strip (PyStr.lower description) in
  match merchant with
  | Some m =>
      if PyStr.truthy merchant
      then text ++ " " ++ PyStr.strip (PyStr.lower m)
      else text
  | None => text
  end.

(** ** The text given to the pipeline *)

(** The value of [text] in [HuggingFaceCategorizer.predict] when the
    pipeline is called. *)
Definition hf_text (description : string) (merchant_name : option string)
  : string :=
  match merchant_name with
  | Some m =>
      if PyStr.truthy merchant_name then description ++ " at " ++ m
      else description
  | None => description
  end.

(** The program after [n] failed constructions of the fallback classifier,
    each reported by [line]. *)
Definition after_failures `{Libs} (line : string) (n : nat) (p : Program)
  : Program :=
  {| _ml_categorizer := _ml_categorizer p;
     _hf_categorizer := _hf_categorizer p;
     console := (console p ++ repeat line n)%list |}.

(** ** The program once the fallback classifier is assigned *)

(** The program after [_hf_categorizer = h] (line 293). *)
Definition with_fallback `{Libs} (h : HuggingFaceCategorizer) (p : Program)
  : Program :=
  {| _ml_categorizer := _ml_categorizer p;
     _hf_categorizer := Some h;
     console := console p |}.

(** ** Texts within ASCII *)

(** Every character of [s] is below 128.  On such texts [PyStr.lower] and
    [PyStr.strip] are [str.lower] and [str.strip]; beyond them Python
    lowers further letters, also into more than one code point, and strips
    further spaces. *)
Fixpoint is_ascii (s : string) : bool :=
  match s with
  | EmptyString => true
  | String c s' => (nat_of_ascii c <? 128)%nat && is_ascii s'
  end.

(** ** What a statement keeps *)

(** Every run of [c] takes a state to one related to it by [R]. *)
Definition preserves {S A : Type} (R : S -> S -> Prop) (c : M S A) : Prop :=
  forall s r s', c s = (r, s') -> R s s'.

(** Whatever [c] raises satisfies [allowed]. *)
Definition raises_only {S A : Type} (allowed : exn -> Prop) (c : M S A)
  : Prop :=
  forall s e s', c s = (Raise e, s') -> allowed e.

(** The exceptions of the file system. *)
Definition is_os_error (e : exn) : bool :=
  match e with
  | FileNotFoundError _ | FileExistsError _ | IsADirectoryError _ => true
  | _ => false
  end.

(** What the libraries raise is no error of the file system. *)
Definition not_os (e : exn) : Prop := is_os_error e = false.

(** A vectorizer that has a vocabulary is still the same object. *)
Definition vocabulary_kept `{Libs} (f f' : Frame) : Prop :=
  has_vocabulary (vectorizer (self f)) = true ->
  vectorizer (self f') = vectorizer (self f).

(** What [train] never touches. *)
Definition identity_kept `{Libs} (f f' : Frame) : Prop :=
  model_path (self f') = model_path (self f)
  /\ categories (self f') = categories (self f).

(** What [load_model] never touches. *)
Definition store_kept `{Libs} (f f' : Frame) : Prop :=
  disk (env f') = disk (env f)
  /\ model_path (self f') = model_path (self f).

(** What [predict_batch] never touches. *)
Definition model_kept `{Libs} (f f' : Frame) : Prop :=
  model_path (self f') = model_path (self f)
  /\ classifier (self f') = classifier (self f)
  /\ is_trained (self f') = is_trained (self f)
  /\ categories (self f') = categories (self f)
  /\ env f' = env f.

(** What calls of [categorize_transaction] never undo: the primary
    classifier is the same, a constructed fallback classifier stays, and
    the console only grows. *)
Definition globals_kept `{Libs} (p p' : Program) : Prop :=
  _ml_categorizer p' = _ml_categorizer p
  /\ (forall h, _hf_categorizer p = Some h -> _hf_categorizer p' = Some h)
  /\ exists lines, console p' = (console p ++ lines)%list.

(** The categorizer with its trained flag cleared. *)
Definition untrained_copy `{Libs} (c : TransactionCategorizer)
  : TransactionCategorizer :=
  {| model_path := model_path c;
     vectorizer := vectorizer c;
     classifier := classifier c;
     is_trained := false;
     categories := categories c |}.

(** ** Further instances for the runs *)

Module Cases.

(** The libraries [L] with another [pickle.loads]. *)
Definition with_loads (L : Libs)
    (loads : bytes ->
             outcome (unpickled (@TfidfVectorizer L)
                                (@RandomForestClassifier L)))
  : Libs :=
  {| TfidfVectorizer := @TfidfVectorizer L;
     csr_matrix := @csr_matrix L;
     ndarray := @ndarray L;
     TfidfVectorizer_new := @TfidfVectorizer_new L;
     has_vocabulary := @has_vocabulary L;
     vectorizer_fit_transform := @vectorizer_fit_transform L;
     vectorizer_transform := @vectorizer_transform L;
     toarray := @toarray L;
     array_len := @array_len L;
     RandomForestClassifier := @RandomForestClassifier L;
     RandomForestClassifier_new := @RandomForestClassifier_new L;
     classifier_fit := @classifier_fit L;
     classifier_predict := @classifier_predict L;
     classifier_predict_proba := @classifier_predict_proba L;
     train_test_split := @train_test_split L;
     accuracy_score := @accuracy_score L;
     classification_report := @classification_report L;
     Pipeline := @Pipeline L;
     pipeline := @pipeline L;
     pipeline_call := @pipeline_call L;
     pickle_dumps := @pickle_dumps L;
     pickle_loads := loads |}.

(** A disk with one file at the default model path. *)
Definition disk_with (b : bytes) : Disk :=
  {| files := {[ default_model_path := b ]}; dirs := {[ "models" ]} |}.

Definition env_with (b : bytes) : Env :=
  {| disk := disk_with b; stdout := []%list |}.

(** A pickle whose dictionary lacks the classifier. *)
Definition loads_no_classifier (b : bytes)
  : outcome (unpickled bool Stub.forest) :=
  Returns (Dict (Some true) None (Some true) None).

(** A pickle whose dictionary lacks the categories. *)
Definition loads_no_categories (b : bytes)
  : outcome (unpickled bool Stub.forest) :=
  Returns (Dict (Some true)
                (Some {| Stub.answer := "gas"; Stub.sure := Stub.Sure |})
                (Some true) None).

(** A pipeline that answers with a label outside the candidate list, and
    one that answers with nothing. *)
Definition off_list : outcome zero_shot_output :=
  Stub.online "cryptocurrency" 0.9%float.

Definition silent : outcome zero_shot_output :=
  Returns {| labels := []%list; scores := []%list |}.

(** A categorizer marked trained whose vectorizer was never fitted. *)
Definition unfitted : @TransactionCategorizer Stub.offline_libs :=
  {| model_path := default_model_path;
     vectorizer := (false : @TfidfVectorizer Stub.offline_libs);
     classifier :=
       ({| Stub.answer := "gas"; Stub.sure := Stub.Sure |}
        : @RandomForestClassifier Stub.offline_libs);
     is_trained := true;
     categories := []%list |}.

(** Three transactions of a Plaid response: with a merchant, with a null
    merchant, and without the key. *)
Definition response : list plaid_transaction :=
  [ {| pt_name := "STARBUCKS STORE #123";
       pt_merchant_name := Some (Some "Starbucks");
       pt_category := Some (Some ["Food and Drink"]%list) |};
    {| pt_name := "ACH TRANSFER";
       pt_merchant_name := Some None;
       pt_category := Some None |};
    {| pt_name := "CHECK 1021";
       pt_merchant_name := None;
       pt_category := None |} ]%list.

(** Classifier states for the runs. *)
Definition gas : Stub.forest := {| Stub.answer := "gas"; Stub.sure := Stub.Sure |}.

Definition rent : Stub.forest :=
  {| Stub.answer := "rent"; Stub.sure := Stub.Split |}.

(** An untrained categorizer whose model path is a bare file name. *)
Definition bare : @TransactionCategorizer Stub.offline_libs :=
  {| model_path := "model.pkl";
     vectorizer := (false : @TfidfVectorizer Stub.offline_libs);
     classifier := (rent : @RandomForestClassifier Stub.offline_libs);
     is_trained := false;
     categories := []%list |}.

Definition partial_libs : Libs := with_loads Stub.offline_libs loads_no_classifier.

Definition keyless_libs : Libs := with_loads Stub.offline_libs loads_no_categories.

(** An untrained categorizer at the default path, for either pickle. *)
Definition stale (L : Libs) (v : @TfidfVectorizer L)
    (c : @RandomForestClassifier L) : @TransactionCategorizer L :=
  {| model_path := default_model_path;
     vectorizer := v;
     classifier := c;
     is_trained := false;
     categories := ["rent"]%list |}.

(** The fallback classifier built on a pipeline with the canned output. *)
Definition fallback_of (hub : outcome zero_shot_output) (out : zero_shot_output)
  : @HuggingFaceCategorizer (Stub.libs hub) :=
  {| hf_classifier := (out : @Pipeline (Stub.libs hub));
     hf_categories := candidate_labels |}.

Definition dining_output : zero_shot_output :=
  {| labels := ["restaurants and dining"]%list; scores := [0.82%float]%list |}.

Definition off_list_output : zero_shot_output :=
  {| labels := ["cryptocurrency"]%list; scores := [0.9%float]%list |}.

Definition silent_output : zero_shot_output :=
  {| labels := []%list; scores := []%list |}.

(** A program whose fallback classifier is constructed. *)
Definition program_with (hub : outcome zero_shot_output)
    (c : @TransactionCategorizer (Stub.libs hub))
    (h : option (@HuggingFaceCategorizer (Stub.libs hub)))
  : @Program (Stub.libs hub) :=
  {| _ml_categorizer := c; _hf_categorizer := h; console := []%list |}.

(** The program that importing the module on an empty disk gives. *)
Definition imported : @Program Stub.offline_libs :=
  {| _ml_categorizer :=
       {| model_path := default_model_path;
          vectorizer := (false : @TfidfVectorizer Stub.offline_libs);
          classifier :=
            ({| Stub.answer := ""; Stub.sure := Stub.Split |}
             : @RandomForestClassifier Stub.offline_libs);
          is_trained := false;
          categories := @category_values Stub.enum |};
     _hf_categorizer := None;
     console := []%list |}.

End Cases.

(** * Properties *)

(** ** Text preprocessing *)

Example preprocess_starbucks :
  preprocess_text "STARBUCKS STORE #123" (Some "Starbucks")
  = "starbucks store #123 starbucks".
Proof. reflexivity. Qed.

Example preprocess_pos_debit :
  preprocess_text "  POS DEBIT Walmart  " None = "walmart".
Proof. reflexivity. Qed.

Example preprocess_single_pass :
  preprocess_text "pposos" None = "pos".
Proof. reflexivity. Qed.

Example preprocess_not_word_aware :
  preprocess_text "discredited" (Some "") = "dised".
Proof. reflexivity. Qed.

Example dirname_default :
  Os.dirname "models/transaction_categorizer.pkl" = "models".
Proof. reflexivity. Qed.

Example dirname_bare : Os.dirname "model.pkl" = "".
Proof. reflexivity. Qed.

Example dirname_root : Os.dirname "/model.pkl" = "/".
Proof. reflexivity. Qed.

Section ReplaceFacts.

Variable term : string.
Hypothesis term_not_empty : PyStr.is_empty term = false.

(** Skipping [k] characters of the scan is dropping them first. *)
Lemma replace_scan_skip (k : nat) (new s : string) :
  PyStr.replace_scan k term new s = PyStr.replace_scan 0 term new (drop k s).
Proof.
  revert s. induction k as [| k IH]; intros s.
  - reflexivity.
  - destruct s as [| c s']; [reflexivity |]. simpl. apply IH.
Qed.

Lemma index_empty_text (n : nat) : String.index n term "" = None.
Proof.
  destruct term; [discriminate term_not_empty |].
  destruct n; reflexivity.
Qed.

Lemma index_cons (c : ascii) (s : string) :
  String.index 0 term (String c s)
  = if String.prefix term (String c s) then Some 0%nat
    else match String.index 0 term s with
         | Some n => Some (S n)
         | None => None
         end.
Proof. reflexivity. Qed.

Lemma replace_scan_cons (new : string) (c : ascii) (s : string) :
  PyStr.replace_scan 0 term new (String c s)
  = if String.prefix term (String c s)
    then new ++ PyStr.replace_scan (String.length term - 1) term new s
    else String c (PyStr.replace_scan 0 term new s).
Proof. reflexivity. Qed.

Lemma replace_scan_no_occurrence (s : string) :
  String.index 0 term s = None -> PyStr.replace_scan 0 term "" s = s.
Proof.
  induction s as [| c s' IH]; [reflexivity |].
  rewrite index_cons, replace_scan_cons.
  destruct (String.prefix term (String c s')); [intros [=] |].
  destruct (String.index 0 term s') as [j |]; [intros [=] |].
  intros _. rewrite IH; reflexivity.
Qed.

Lemma replace_scan_leftmost (s : string) (i : nat) :
  String.index 0 term s = Some i ->
  PyStr.replace_scan 0 term "" s
  = String.substring 0 i s
    ++ PyStr.replace_scan 0 term "" (drop (i + String.length term) s).
Proof.
  revert i. induction s as [| c s' IH]; intros i.
  - rewrite index_empty_text. intros [=].
  - rewrite index_cons, replace_scan_cons.
    destruct (String.prefix term (String c s')) eqn:Hp.
    + intros [= <-].
      rewrite replace_scan_skip.
      destruct term as [| t0 t']; [discriminate term_not_empty |].
      cbn [String.length Nat.add drop String.substring].
      replace (S (String.length t') - 1)%nat with (String.length t') by lia.
      reflexivity.
    + destruct (String.index 0 term s') as [j |]; [| intros [=]].
      intros [= <-].
      rewrite (IH j eq_refl). reflexivity.
Qed.

Lemma length_drop (k : nat) (s : string) :
  String.length (drop k s) = (String.length s - k)%nat.
Proof.
  revert s. induction k as [| k IH]; intros s.
  - simpl. lia.
  - destruct s as [| c s']; [reflexivity |]. simpl. apply IH.
Qed.

Lemma cut_all_replace_scan (fuel : nat) (s : string) :
  (String.length s <= fuel)%nat ->
  cut_all fuel term s = PyStr.replace_scan 0 term "" s.
Proof.
  revert s. induction fuel as [| n IH]; intros s Hlen.
  - destruct s; [reflexivity | simpl in Hlen; lia].
  - cbn [cut_all].
    destruct (String.index 0 term s) as [i |] eqn:Hi.
    + rewrite (replace_scan_leftmost s i Hi).
      rewrite IH; [reflexivity |].
      rewrite length_drop.
      destruct term; [discriminate term_not_empty |]. simpl. lia.
    + symmetry. apply replace_scan_no_occurrence. exact Hi.
Qed.

End ReplaceFacts.

(** Deleting the occurrences of a term is [text.replace(term, '')]. *)
Lemma delete_occurrences_replace (term text : string) :
  delete_occurrences term text = PyStr.replace term "" text.
Proof.
  unfold delete_occurrences, PyStr.replace.
  destruct (PyStr.is_empty term) eqn:Hterm.
  - induction text as [| c s IH]; [reflexivity |].
    simpl. rewrite <- IH. reflexivity.
  - apply cut_all_replace_scan; [exact Hterm | lia].
Qed.

Lemma delete_terms_remove_each (terms : list string) (text : string) :
  delete_terms terms text = remove_each terms text.
Proof.
  unfold remove_each. revert text.
  induction terms as [| term rest IH]; intros text; [reflexivity |].
  simpl. rewrite IH, delete_occurrences_replace. reflexivity.
Qed.

(** The function equals the reference over any stop-list that the loop
    runs through. *)
Lemma preprocess_reference_loop (terms : list string) (description : string)
    (merchant : option string) :
  preprocess_reference terms description merchant
  = PyStr.strip
      (remove_each terms
         (let text := PyStr.strip (PyStr.lower description) in
          match merchant with
          | Some m =>
              if PyStr.truthy merchant
              then text ++ " " ++ PyStr.strip (PyStr.lower m)
              else text
          | None => text
          end)).
Proof.
  unfold preprocess_reference. rewrite delete_terms_remove_each.
  destruct merchant as [[| c m] |]; reflexivity.
Qed.

(** C5 (amended). [preprocess_text] equals the reference function over the
    ten stop-terms payment, purchase, transaction, debit, credit, pos, atm,
    withdrawal, deposit, transfer, deleted one after the other in this
    order, each as a literal substring. *)
Theorem preprocess_text_reference (description : string)
    (merchant : option string) :
  preprocess_text description merchant
  = preprocess_reference
      [ "payment"; "purchase"; "transaction"; "debit"; "credit"; "pos";
        "atm"; "withdrawal"; "deposit"; "transfer" ]
      description merchant.
Proof.
  rewrite preprocess_reference_loop.
  unfold preprocess_text, remove_terms. reflexivity.
Qed.

(** The stop-list of the specification lacks "transaction", which the
    function deletes. *)
Lemma preprocess_text_deletes_transaction :
  preprocess_text "transaction fee" None = "fee"
  /\ preprocess_reference spec_stop_terms "transaction fee" None
     = "transaction fee"
  /\ preprocess_text "transaction fee" None
     <> preprocess_reference spec_stop_terms "transaction fee" None.
Proof.
  split; [reflexivity |]. split; [reflexivity |].
  intros H. vm_compute in H. discriminate H.
Qed.

(** ** The monad *)

Lemma bind_ok {S A B : Type} (c : M S A) (k : A -> M S B) s a s' :
  c s = (Ok a, s') -> bind c k s = k a s'.
Proof. intros H. unfold bind. rewrite H. reflexivity. Qed.

Lemma bind_raise {S A B : Type} (c : M S A) (k : A -> M S B) s e s' :
  c s = (Raise e, s') -> bind c k s = (Raise e, s').
Proof. intros H. unfold bind. rewrite H. reflexivity. Qed.

Lemma try_except_ok {S A : Type} (c : M S A) (h : exn -> M S A) s a s' :
  c s = (Ok a, s') -> try_except c h s = (Ok a, s').
Proof. intros H. unfold try_except. rewrite H. reflexivity. Qed.

Lemma try_except_raise {S A : Type} (c : M S A) (h : exn -> M S A) s e s' :
  c s = (Raise e, s') -> try_except c h s = h e s'.
Proof. intros H. unfold try_except. rewrite H. reflexivity. Qed.

(** A handler that cannot raise makes the whole [try] statement return. *)
Lemma try_except_total {S A : Type} (c : M S A) (h : exn -> M S A) :
  (forall e s, exists a s', h e s = (Ok a, s')) ->
  forall s, exists a s', try_except c h s = (Ok a, s').
Proof.
  intros Hh s. unfold try_except.
  destruct (c s) as [[a | e] s'].
  - exists a, s'. reflexivity.
  - apply Hh.
Qed.

(** ** Floats at the two thresholds *)

Lemma not_above_primary_threshold : py_gt 0.7%float 0.7%float = false.
Proof. reflexivity. Qed.

Lemma not_above_fallback_threshold : py_gt 0.5%float 0.5%float = false.
Proof. reflexivity. Qed.

Lemma just_above_primary_threshold : py_gt 0.71%float 0.7%float = true.
Proof. reflexivity. Qed.

Lemma nan_is_not_above : py_gt PrimFloat.nan 0.7%float = false.
Proof. reflexivity. Qed.

(** ** The category mapper *)

Section MapperFacts.

Context `{E : TransactionCategory}.

Lemma named_member (v : string) :
  In v [ GROCERIES; RESTAURANTS; GAS; GENERAL_MERCHANDISE; UTILITIES;
         MOVIES; MEDICAL; BANK_FEES; TRAVEL; EDUCATION; CHARITY;
         UNCATEGORIZED ] ->
  In v category_values.
Proof.
  intros Hin.
  exact (proj1 (List.Forall_forall _ _) named_members v Hin).
Qed.

Lemma uncategorized_member : In UNCATEGORIZED category_values.
Proof.
  apply named_member. simpl.
  repeat (first [ left; reflexivity | right ]).
Qed.

(** [category_mapping.get(label, UNCATEGORIZED)] is one of the twelve
    named values, whatever the label. *)
Lemma mapped_category_named (label : string) :
  In (default UNCATEGORIZED (category_mapping !! label))
     [ GROCERIES; RESTAURANTS; GAS; GENERAL_MERCHANDISE; UTILITIES;
       MOVIES; MEDICAL; BANK_FEES; TRAVEL; EDUCATION; CHARITY;
       UNCATEGORIZED ].
Proof.
  unfold category_mapping, dict_of. cbn [fold_left fst snd].
  repeat (rewrite lookup_insert; case_decide;
          [ cbn [default]; simpl;
            repeat (first [ left; reflexivity | right ]) | ]).
  rewrite lookup_empty. simpl.
  repeat (first [ left; reflexivity | right ]).
Qed.

Lemma mapped_category_member (label : string) :
  In (default UNCATEGORIZED (category_mapping !! label)) category_values.
Proof. apply named_member, mapped_category_named. Qed.

(** A label outside the candidate list maps to [UNCATEGORIZED]. *)
Lemma unmapped_label (label : string) :
  ~ In label candidate_labels ->
  default UNCATEGORIZED (category_mapping !! label) = UNCATEGORIZED.
Proof.
  intros Hout.
  unfold category_mapping, dict_of. cbn [fold_left fst snd].
  repeat (rewrite lookup_insert; case_decide;
          [ exfalso; apply Hout; subst label; simpl;
            repeat (first [ left; reflexivity | right ]) | ]).
  rewrite lookup_empty. reflexivity.
Qed.

End MapperFacts.

(** ** The primary classifier and its model store *)

Lemma guard_free_ret {S A : Type} (a : A) : guard_free (@ret S A a).
Proof. intros s s'. unfold ret. discriminate. Qed.

Lemma guard_free_get {S : Type} : guard_free (@get S).
Proof. intros s s'. unfold get. discriminate. Qed.

Lemma guard_free_modify {S : Type} (f : S -> S) : guard_free (modify f).
Proof. intros s s'. unfold modify. discriminate. Qed.

Lemma guard_free_lift {S A : Type} (o : outcome A) :
  guard_free (@pure S A (lift o)).
Proof. intros s s'. unfold pure. destruct o; simpl; discriminate. Qed.

Lemma guard_free_bind {S A B : Type} (c : M S A) (k : A -> M S B) :
  guard_free c -> (forall a, guard_free (k a)) -> guard_free (bind c k).
Proof.
  intros Hc Hk s s'. unfold bind.
  destruct (c s) as [[a | e] s1] eqn:Hrun.
  - apply Hk.
  - intros [= -> ->]. exact (Hc _ _ Hrun).
Qed.

Create HintDb guard_free.

Global Hint Resolve guard_free_ret guard_free_get guard_free_modify
  guard_free_lift : guard_free.

Section CategorizerFacts.

Context `{L : Libs} `{E : TransactionCategory}.

Lemma guard_free_on_disk {A : Type} (op : Disk -> result A * Disk) :
  (forall d d', op d <> (Raise insufficient_data, d')) ->
  guard_free (on_disk op).
Proof.
  intros Hop s s'. unfold on_disk.
  destruct (op (disk (env s))) as [r d] eqn:Hrun.
  intros [= -> _]. exact (Hop _ _ Hrun).
Qed.

Lemma guard_free_makedirs name : guard_free (on_disk (Os.makedirs name)).
Proof.
  apply guard_free_on_disk. intros d d'. unfold Os.makedirs.
  repeat case_match; discriminate.
Qed.

Lemma guard_free_open_wb path : guard_free (on_disk (Os.open_wb path)).
Proof.
  apply guard_free_on_disk. intros d d'. unfold Os.open_wb.
  repeat case_match; discriminate.
Qed.

Lemma guard_free_save_model : guard_free save_model.
Proof.
  unfold save_model.
  apply guard_free_bind; [auto with guard_free |]. intros f.
  destruct (negb (is_trained (self f))); [auto with guard_free |].
  apply guard_free_bind; [apply guard_free_makedirs |]. intros _.
  unfold dump_to.
  apply guard_free_bind; [apply guard_free_open_wb |]. intros _.
  apply guard_free_bind; [auto with guard_free |]. intros b.
  apply guard_free_on_disk. discriminate.
Qed.

Lemma guard_free_create_features df : guard_free (create_features df).
Proof.
  unfold create_features.
  apply guard_free_bind; [auto with guard_free |]. intros f.
  apply guard_free_bind; [| auto with guard_free].
  destruct (negb (has_vocabulary (vectorizer (self f))));
    [| auto with guard_free].
  intros s s'. unfold fit_transform.
  destruct (vectorizer_fit_transform (vectorizer (self s)) _) as [o v].
  apply guard_free_bind; [apply guard_free_modify | auto with guard_free].
Qed.

Lemma guard_free_fit X y : guard_free (fit X y).
Proof.
  intros s s'. unfold fit.
  destruct (classifier_fit (classifier (self s)) X y) as [o c].
  apply guard_free_bind; [apply guard_free_modify | auto with guard_free].
Qed.

(** Past its guard, [train] raises only what the libraries and the file
    system raise. *)
Lemma guard_free_train_fit df : guard_free (train_fit df).
Proof.
  unfold train_fit.
  apply guard_free_bind; [apply guard_free_create_features |]. intros X.
  apply guard_free_bind; [auto with guard_free |].
  intros [[[X_train X_test] y_train] y_test].
  apply guard_free_bind; [apply guard_free_fit |]. intros _.
  apply guard_free_bind; [auto with guard_free |]. intros f.
  apply guard_free_bind; [auto with guard_free |]. intros y_pred.
  apply guard_free_bind; [auto with guard_free |]. intros accuracy.
  apply guard_free_bind; [apply guard_free_modify |]. intros _.
  apply guard_free_bind; [apply guard_free_save_model |]. intros _.
  apply guard_free_bind; [auto with guard_free |]. intros report.
  apply guard_free_ret.
Qed.

(** C3. [train] raises the [ValueError] of its guard exactly when the
    corpus has fewer than 50 rows; it then leaves the categorizer
    (vectorizer, classifier, trained flag, categories) and the
    environment (the persisted artifact included) as they were.  From 50
    rows on, the call is the training proper. *)
Theorem train_insufficient_data (transactions_df : list Row) (f : Frame) :
  (fst (train transactions_df f) = Raise insufficient_data
   <-> (length transactions_df < 50)%nat)
  /\ ((length transactions_df < 50)%nat ->
      train transactions_df f = (Raise insufficient_data, f))
  /\ ((50 <= length transactions_df)%nat ->
      train transactions_df f = train_fit transactions_df f).
Proof.
  unfold train.
  destruct (length transactions_df <? 50)%nat eqn:Hlen.
  - apply Nat.ltb_lt in Hlen.
    split; [| split].
    + split; [intros _; exact Hlen | intros _; reflexivity].
    + intros _. reflexivity.
    + intros Hge. lia.
  - apply Nat.ltb_ge in Hlen.
    split; [| split].
    + split; [| intros Hlt; lia].
      intros Hraise. exfalso.
      destruct (train_fit transactions_df f) as [r f'] eqn:Hrun.
      simpl in Hraise. subst r.
      exact (guard_free_train_fit _ _ _ Hrun).
    + intros Hlt. lia.
    + intros _. reflexivity.
Qed.

(** C7. On an untrained categorizer [predict] returns UNCATEGORIZED with
    confidence 0.0, whatever the description, merchant name and amount,
    and does not raise. *)
Theorem predict_untrained (c : TransactionCategorizer)
    (description : string) (merchant_name : option string)
    (amount : option float) :
  is_trained c = false ->
  predict c description merchant_name amount
  = Ok (UNCATEGORIZED, 0.0%float).
Proof. intros Ht. unfold predict. rewrite Ht. reflexivity. Qed.

(** C9. [retrain_with_feedback] does nothing: it returns None and the
    categorizer, the disk and the console are as before. *)
Theorem retrain_with_feedback_is_a_no_op
    (transaction_data : gmap string string) (correct_category : string)
    (f : Frame) :
  retrain_with_feedback transaction_data correct_category f = (Ok tt, f).
Proof. reflexivity. Qed.

(** *** The model store *)

(** [load_model] never raises. *)
Lemma load_model_returns (f : Frame) :
  exists f', load_model f = (Ok tt, f').
Proof.
  unfold load_model, bind, get.
  destruct (Os.exists_ (model_path (self f)) (disk (env f))).
  - match goal with
    | |- exists f', try_except ?body ?handler f = _ =>
        destruct (try_except_total body handler) with (s := f)
          as (u & f' & Hrun)
    end.
    + intros e s. unfold bind, print, set_is_trained, modify. eauto.
    + destruct u. eauto.
  - unfold ret. eauto.
Qed.

Lemma init_returns (path : string) (e : Env) :
  exists c e', TransactionCategorizer_init path e = (Ok c, e').
Proof.
  unfold TransactionCategorizer_init.
  match goal with
  | |- context [load_model ?f] =>
      destruct (load_model_returns f) as (f' & ->)
  end.
  eauto.
Qed.

(** [predict] reads the trained flag, the vectorizer and the classifier,
    and nothing else of the categorizer. *)
Lemma predict_reads (c1 c2 : TransactionCategorizer) description
    merchant_name amount :
  is_trained c1 = is_trained c2 ->
  vectorizer c1 = vectorizer c2 ->
  classifier c1 = classifier c2 ->
  predict c1 description merchant_name amount
  = predict c2 description merchant_name amount.
Proof. intros Ht Hv Hc. unfold predict. rewrite Ht, Hv, Hc. reflexivity. Qed.

(** What a [save_model] that returned has done. *)
Lemma save_model_inv (c : TransactionCategorizer) (e : Env) (f' : Frame) :
  is_trained c = true ->
  save_model {| self := c; env := e |} = (Ok tt, f') ->
  self f' = c
  /\ stdout (env f') = stdout e
  /\ exists b,
       pickle_dumps (current_model_data c) = Returns b
       /\ files (disk (env f')) !! model_path c = Some b.
Proof.
  intros Ht.
  unfold save_model, dump_to, bind, get, on_disk, pure, ret. simpl.
  rewrite Ht. simpl.
  destruct (Os.makedirs (Os.dirname (model_path c)) (disk e))
    as [[[] | x] d1]; simpl; [| intros [=]].
  destruct (Os.open_wb (model_path c) d1) as [[[] | x] d2];
    simpl; [| intros [=]].
  destruct (pickle_dumps (current_model_data c)) as [b | msg];
    simpl; [| intros [=]].
  intros [= <-]. simpl.
  split; [reflexivity |]. split; [reflexivity |].
  exists b. split; [reflexivity |]. apply lookup_insert_eq.
Qed.

(** In the model, saving a trained categorizer returns when its path has
    a directory part that can be created, is not itself a directory, and
    the model can be pickled. *)
Lemma save_model_returns (c : TransactionCategorizer) (e : Env) (b : bytes) :
  is_trained c = true ->
  PyStr.is_empty (Os.dirname (model_path c)) = false ->
  files (disk e) !! Os.dirname (model_path c) = None ->
  model_path c ∉ dirs (disk e) ->
  model_path c <> Os.dirname (model_path c) ->
  pickle_dumps (current_model_data c) = Returns b ->
  exists f', save_model {| self := c; env := e |} = (Ok tt, f').
Proof.
  intros Ht Hdir Hfile Hnodir Hne Hdump.
  unfold save_model, dump_to, bind, get, on_disk, pure, ret. simpl.
  rewrite Ht. simpl.
  unfold Os.makedirs. rewrite Hdir.
  rewrite bool_decide_eq_false_2 by (rewrite Hfile; apply is_Some_None).
  unfold Os.open_wb. simpl.
  rewrite bool_decide_eq_false_2
    by (intros [Hin | Hin]%elem_of_union;
        [ apply elem_of_singleton in Hin; congruence | exact (Hnodir Hin) ]).
  destruct (PyStr.is_empty (model_path c)) eqn:Hp.
  { destruct (model_path c); [discriminate Hdir | discriminate Hp]. }
  rewrite Hdir. simpl.
  rewrite bool_decide_eq_true_2
    by (apply elem_of_union_l, elem_of_singleton; reflexivity).
  simpl.
  rewrite Hdump. simpl. eauto.
Qed.

(** Loading an artifact that unpickles to a full dictionary. *)
Lemma load_model_artifact (c0 : TransactionCategorizer) (e : Env)
    (b : bytes) (d : model_data TfidfVectorizer RandomForestClassifier) :
  files (disk e) !! model_path c0 = Some b ->
  pickle_loads b = Returns (as_dict d) ->
  load_model {| self := c0; env := e |}
  = (Ok tt,
     {| self := {| model_path := model_path c0;
                   vectorizer := md_vectorizer d;
                   classifier := md_classifier d;
                   is_trained := md_is_trained d;
                   categories := md_categories d |};
        env := e |}).
Proof.
  intros Hfile Hload.
  unfold load_model, bind at 1, get. simpl.
  unfold Os.exists_.
  rewrite bool_decide_eq_true_2 by (rewrite Hfile; eauto). simpl.
  unfold try_except, load_from, bind, on_disk, pure, Os.read. simpl.
  rewrite Hfile, Hload. simpl.
  destruct e as [dk out]. reflexivity.
Qed.

(** C6. Round trip through the model store.  For a trained categorizer
    whose [save_model] returned, and a pickle that reads back what it
    wrote for this model, [load_model] on the same categorizer, and the
    construction of a fresh categorizer at the same path, both return a
    categorizer whose [predict] agrees with the saved one on every input:
    same category and confidence, or the same exception. *)
Theorem save_load_round_trip (c : TransactionCategorizer) (e : Env)
    (f' : Frame) :
  is_trained c = true ->
  save_model {| self := c; env := e |} = (Ok tt, f') ->
  (forall b,
      pickle_dumps (current_model_data c) = Returns b ->
      pickle_loads b = Returns (as_dict (current_model_data c))) ->
  (exists c1 e1,
      load_model f' = (Ok tt, {| self := c1; env := e1 |})
      /\ forall description merchant_name amount,
           predict c1 description merchant_name amount
           = predict c description merchant_name amount)
  /\ (exists c2 e2,
         TransactionCategorizer_init (model_path c) (env f') = (Ok c2, e2)
         /\ forall description merchant_name amount,
              predict c2 description merchant_name amount
              = predict c description merchant_name amount).
Proof.
  intros Ht Hsave Hpickle.
  destruct (save_model_inv c e f' Ht Hsave) as (Hself & _ & b & Hdump & Hfile).
  specialize (Hpickle b Hdump).
  split.
  - destruct f' as [c' e']. simpl in Hself, Hfile. subst c'.
    eexists _, _. split.
    + eapply load_model_artifact; eauto.
    + intros. apply predict_reads; reflexivity.
  - unfold TransactionCategorizer_init.
    erewrite load_model_artifact; [| exact Hfile | exact Hpickle].
    eexists _, _. split; [reflexivity |].
    intros. apply predict_reads; reflexivity.
Qed.

End CategorizerFacts.

(** ** The fallback classifier *)

Section FallbackFacts.

Context `{L : Libs} `{E : TransactionCategory}.

Lemma and_then_ok {A B : Type} (r : result A) (k : A -> result B) b :
  and_then r k = Ok b -> exists a, r = Ok a /\ k a = Ok b.
Proof.
  destruct r as [a | e]; simpl; intros H.
  - exists a. split; [reflexivity | exact H].
  - discriminate H.
Qed.

(** Whatever the pipeline answers, the fallback classifier's category is
    a value of the enumeration. *)
Lemma hf_predict_member h description merchant_name category confidence :
  hf_predict h description merchant_name = Ok (category, confidence) ->
  In category category_values.
Proof.
  unfold hf_predict. intros H.
  apply and_then_ok in H as (out & _ & H).
  apply and_then_ok in H as (label & _ & H).
  apply and_then_ok in H as (score & _ & H).
  injection H as <- _.
  apply mapped_category_member.
Qed.

End FallbackFacts.

(** ** The decision chain *)

Section OrchestratorFacts.

Context `{L : Libs} `{E : TransactionCategory}.

Ltac run :=
  unfold categorize_transaction, categorize_from_fallback, categorize_body,
    fallback_stage, lazy_fallback, primary_stage, emergency_fallback,
    try_except, bind, pure, ret, get, say, set_hf, modify, logged;
  cbn beta iota.



(** The primary stage leaves the program as it was. *)
Lemma primary_stage_state description merchant_name p r p' :
  primary_stage description merchant_name p = (r, p') -> p' = p.
Proof.
  run.
  destruct (is_trained (_ml_categorizer p)).
  - destruct (predict (_ml_categorizer p) description merchant_name None)
      as [[category confidence] | e].
    + destruct (py_gt confidence 0.7%float); intros [= _ <-]; reflexivity.
    + intros [= _ <-]; reflexivity.
  - intros [= _ <-]; reflexivity.
Qed.

(** It returns a category only on a confident prediction. *)
Lemma primary_stage_some description merchant_name p v :
  primary_stage description merchant_name p = (Ok (Some v), p) ->
  is_trained (_ml_categorizer p) = true
  /\ exists confidence,
       predict (_ml_categorizer p) description merchant_name None
       = Ok (v, confidence)
       /\ py_gt confidence 0.7%float = true.
Proof.
  run.
  destruct (is_trained (_ml_categorizer p)); [| discriminate].
  destruct (predict (_ml_categorizer p) description merchant_name None)
    as [[category confidence] | e]; [| discriminate].
  destruct (py_gt confidence 0.7%float) eqn:Hc; [| discriminate].
  intros [= ->]. split; [reflexivity |]. exists confidence. auto.
Qed.

(** When the primary stage does not return, the function goes on as if
    entered at the fallback stage. *)
Lemma falls_through description merchant_name categories p :
  primary_stage description merchant_name p = (Ok None, p) ->
  categorize_transaction description merchant_name categories p
  = categorize_from_fallback description merchant_name p.
Proof.
  intros H.
  unfold categorize_transaction, categorize_from_fallback, categorize_body,
    try_except.
  rewrite (bind_ok _ _ _ _ _ H). reflexivity.
Qed.

Lemma returns_primary description merchant_name categories p v :
  primary_stage description merchant_name p = (Ok (Some v), p) ->
  categorize_transaction description merchant_name categories p = (Ok v, p).
Proof.
  intros H.
  unfold categorize_transaction, categorize_body, try_except.
  rewrite (bind_ok _ _ _ _ _ H). reflexivity.
Qed.

Lemma primary_raises description merchant_name categories p e :
  primary_stage description merchant_name p = (Raise e, p) ->
  categorize_transaction description merchant_name categories p
  = emergency_fallback e p.
Proof.
  intros H.
  unfold categorize_transaction, categorize_body, try_except.
  rewrite (bind_raise _ _ _ _ _ H). reflexivity.
Qed.

(** The fallback stage under the outer handler: it returns the default,
    or the category of a fallback prediction above the threshold. *)
Lemma fallback_verdict description merchant_name p :
  exists v p',
    categorize_from_fallback description merchant_name p = (Ok v, p')
    /\ (v = UNCATEGORIZED
        \/ exists h confidence,
             _hf_categorizer p' = Some h
             /\ hf_predict h description merchant_name = Ok (v, confidence)
             /\ py_gt confidence 0.5%float = true).
Proof.
  run.
  destruct (_hf_categorizer p) as [h |] eqn:Hh.
  - destruct (hf_predict h description merchant_name)
      as [[category confidence] | e] eqn:Hf.
    + destruct (py_gt confidence 0.5%float) eqn:Hc.
      * exists category, p. split; [reflexivity |]. right. eauto.
      * eexists _, _. split; [reflexivity |]. left. reflexivity.
    + eexists _, _. split; [reflexivity |]. left. reflexivity.
  - destruct HuggingFaceCategorizer_init as [h | e] eqn:Hi.
    + destruct (hf_predict h description merchant_name)
        as [[category confidence] | e] eqn:Hf.
      * destruct (py_gt confidence 0.5%float) eqn:Hc.
        -- eexists _, _. split; [reflexivity |]. right.
           exists h, confidence. auto.
        -- eexists _, _. split; [reflexivity |]. left. reflexivity.
      * eexists _, _. split; [reflexivity |]. left. reflexivity.
    + eexists _, _. split; [reflexivity |]. left. reflexivity.
Qed.

Lemma categorize_transaction_verdict description merchant_name categories p :
  exists v p',
    categorize_transaction description merchant_name categories p
    = (Ok v, p')
    /\ verdict description merchant_name p p' v.
Proof.
  destruct (primary_stage description merchant_name p) as [r p0] eqn:Hs.
  pose proof (primary_stage_state _ _ _ _ _ Hs) as ->.
  destruct r as [[v |] | e].
  - exists v, p. split; [eapply returns_primary; eauto |].
    apply primary_stage_some in Hs as (Ht & confidence & Hp & Hc).
    eapply by_primary; eauto.
  - destruct (fallback_verdict description merchant_name p)
      as (v & p' & Hrun & Hv).
    exists v, p'. split.
    + rewrite (falls_through _ _ _ _ Hs). exact Hrun.
    + destruct Hv as [-> | (h & confidence & Hh & Hf & Hc)].
      * apply by_default. reflexivity.
      * eapply by_fallback; eauto.
  - eexists _, _. split.
    + rewrite (primary_raises _ _ _ _ _ Hs). reflexivity.
    + apply by_default. reflexivity.
Qed.

(** *** The contract of [categorize_transaction] *)


(** A primary classifier whose labels all belong to the enumeration
    makes every result a value of the enumeration. *)
Corollary categorize_transaction_member
    (description : string) (merchant_name : option string)
    (categories : option (list string)) (p : Program) :
  (forall label confidence,
      predict (_ml_categorizer p) description merchant_name None
      = Ok (label, confidence) ->
      In label category_values) ->
  exists v p',
    categorize_transaction description merchant_name categories p
    = (Ok v, p')
    /\ In v category_values.
Proof.
  intros Hlabels.
  destruct (categorize_transaction_verdict
              description merchant_name categories p)
    as (v & p' & Hrun & Hv).
  exists v, p'. split; [exact Hrun |].
  destruct Hv as [-> | confidence Ht Hp Hc _ | h confidence Hh Hf Hc].
  - apply uncategorized_member.
  - eapply Hlabels. exact Hp.
  - eapply hf_predict_member. exact Hf.
Qed.

(** C2. Both gates are strict.  With a trained primary classifier whose
    prediction has a confidence above 0.7, [categorize_transaction] returns
    the category of that prediction at once and leaves the program as it
    is.  With a primary classifier that is untrained, or trained with a
    confidence that is not above 0.7, exactly 0.7 included, the call goes
    on to the fallback classifier, the one in place or the one it
    constructs: it returns the fallback's mapped category when that
    confidence is above 0.5, and UNCATEGORIZED when it is not, exactly 0.5
    included. *)
Theorem confidence_gates_are_strict
    (description : string) (merchant_name : option string)
    (categories : option (list string)) (p : Program) :
  (forall category confidence,
      is_trained (_ml_categorizer p) = true ->
      predict (_ml_categorizer p) description merchant_name None
      = Ok (category, confidence) ->
      py_gt confidence 0.7%float = true ->
      categorize_transaction description merchant_name categories p
      = (Ok category, p))
  /\ (forall h p' category confidence,
        (is_trained (_ml_categorizer p) = false
         \/ (is_trained (_ml_categorizer p) = true
             /\ exists primary_category primary_confidence,
                  predict (_ml_categorizer p) description merchant_name None
                  = Ok (primary_category, primary_confidence)
                  /\ (py_gt primary_confidence 0.7%float = false
                      \/ primary_confidence = 0.7%float))) ->
        ((_hf_categorizer p = Some h /\ p' = p)
         \/ (_hf_categorizer p = None
             /\ HuggingFaceCategorizer_init = Ok h
             /\ p' = with_fallback h p)) ->
        hf_predict h description merchant_name = Ok (category, confidence) ->
        (py_gt confidence 0.5%float = true ->
         categorize_transaction description merchant_name categories p
         = (Ok category, p'))
        /\ (py_gt confidence 0.5%float = false \/ confidence = 0.5%float ->
            categorize_transaction description merchant_name categories p
            = (Ok UNCATEGORIZED, p'))).
Proof.
  split.
  - intros category confidence Ht Hp Hc.
    apply returns_primary.
    unfold primary_stage, bind, get, pure, ret.
    rewrite Ht, Hp, Hc. reflexivity.
  - intros h p' category confidence Hprimary Hplace Hf.
    assert (Hstage : primary_stage description merchant_name p = (Ok None, p)).
    { unfold primary_stage, bind, get, pure, ret.
      destruct Hprimary as [Ht | (Ht & c0 & conf0 & Hp & Hlow)].
      - rewrite Ht. reflexivity.
      - assert (Hc : py_gt conf0 0.7%float = false).
        { destruct Hlow as [Hc | ->];
            [exact Hc | exact not_above_primary_threshold]. }
        rewrite Ht, Hp, Hc. reflexivity. }
    assert (Hlazy : lazy_fallback p = (Ok (Some h), p')).
    { unfold lazy_fallback, try_except, bind, get, pure, ret, set_hf, modify.
      destruct Hplace as [[Hh ->] | (Hn & Hi & ->)].
      - rewrite Hh. reflexivity.
      - rewrite Hn, Hi. reflexivity. }
    rewrite (falls_through _ _ _ _ Hstage).
    unfold categorize_from_fallback, fallback_stage, try_except.
    rewrite (bind_ok _ _ _ _ _ Hlazy).
    unfold bind, pure, ret. rewrite Hf.
    split.
    + intros Hc. rewrite Hc. reflexivity.
    + intros Hlow.
      assert (Hc : py_gt confidence 0.5%float = false).
      { destruct Hlow as [Hc | ->];
          [exact Hc | exact not_above_fallback_threshold]. }
      rewrite Hc. reflexivity.
Qed.


(** C8. With no fallback classifier constructed yet, a primary classifier
    that is untrained or whose confidence does not exceed 0.7, and a
    fallback construction that fails, [categorize_transaction] returns
    UNCATEGORIZED without raising; the failure is printed and the
    fallback classifier is still unconstructed afterwards. *)
Theorem fallback_construction_failure
    (description : string) (merchant_name : option string)
    (categories : option (list string)) (p : Program) (e : exn) :
  _hf_categorizer p = None ->
  HuggingFaceCategorizer_init = Raise e ->
  (is_trained (_ml_categorizer p) = false
   \/ exists category confidence,
        predict (_ml_categorizer p) description merchant_name None
        = Ok (category, confidence)
        /\ py_gt confidence 0.7%float = false) ->
  exists p',
    categorize_transaction description merchant_name categories p
    = (Ok UNCATEGORIZED, p')
    /\ _hf_categorizer p' = None
    /\ _ml_categorizer p' = _ml_categorizer p
    /\ p' = logged ("Could not initialize HuggingFace categorizer: "
                    ++ exn_str e) p.
Proof.
  intros Hnone Hinit Hprimary.
  eexists. split; [| split; [| split; [| reflexivity]]].
  - rewrite falls_through.
    + unfold categorize_from_fallback, fallback_stage, lazy_fallback,
        emergency_fallback, try_except, bind, pure, ret, get, say, modify.
      rewrite Hnone, Hinit. reflexivity.
    + unfold primary_stage, bind, get, pure, ret.
      destruct Hprimary as [Ht | (category & confidence & Hp & Hc)].
      * rewrite Ht. reflexivity.
      * destruct (is_trained (_ml_categorizer p)); [| reflexivity].
        rewrite Hp, Hc. reflexivity.
  - exact Hnone.
  - reflexivity.
Qed.

(** C10. The [categories] argument does not influence the call: with two
    hint lists, each possibly None or empty, the result and the program
    left behind are the same. *)
Theorem categories_argument_is_ignored
    (description : string) (merchant_name : option string)
    (h1 h2 : option (list string)) (p : Program) :
  categorize_transaction description merchant_name h1 p
  = categorize_transaction description merchant_name h2 p.
Proof. reflexivity. Qed.

End OrchestratorFacts.

(** ** Runs on the small instance *)

Import Stub.

(** The end-to-end example of the design: an untrained primary classifier
    and a fallback answering "restaurants and dining" with 0.82. *)
Example starbucks_end_to_end :
  fst (@categorize_transaction dining_libs enum
         "STARBUCKS STORE #123" (Some "Starbucks") (Some [])
         (program dining false untrained))
  = Ok (@RESTAURANTS enum).
Proof. vm_compute. reflexivity. Qed.


(** The same holds whatever the enumeration is: some label lies outside
    it, and a classifier sure of that label has it returned. *)
Lemma length_append (s t : string) :
  String.length (s ++ t) = (String.length s + String.length t)%nat.
Proof.
  induction s as [| c s IH]; [reflexivity |].
  change (S (String.length (s ++ t))
          = S (String.length s + String.length t)).
  rewrite IH. reflexivity.
Qed.

Lemma length_concat_member (values : list string) (v : string) :
  In v values -> (String.length v <= String.length (String.concat "" values))%nat.
Proof.
  induction values as [| w rest IH]; intros Hin; [destruct Hin |].
  assert (Hcons : String.concat "" (w :: rest)
                  = (w ++ String.concat "" rest)%string).
  { destruct rest as [| w' rest']; simpl.
    - clear. induction w as [| c w IHw]; [reflexivity |].
      change (String c w = String c (w ++ "")). rewrite <- IHw. reflexivity.
    - reflexivity. }
  rewrite Hcons, length_append.
  destruct Hin as [-> | Hin]; [lia |].
  specialize (IH Hin). lia.
Qed.

Lemma outsider_is_outside (values : list string) :
  ~ In (outsider values) values.
Proof.
  intros Hin. apply length_concat_member in Hin.
  unfold outsider in Hin. simpl in Hin. lia.
Qed.

Lemma foreign_label_in_any_enumeration (E : TransactionCategory) :
  let label := outsider category_values in
  @categorize_transaction offline_libs E "COINBASE" (Some "") None
    (program offline true {| answer := label; sure := Sure |})
  = (Ok label, program offline true {| answer := label; sure := Sure |})
  /\ ~ In label category_values.
Proof.
  intros label. split.
  - apply returns_primary.
    unfold primary_stage, bind, get, pure, ret. reflexivity.
  - apply outsider_is_outside.
Qed.

(** C2, witness: at 0.71 the primary category is returned; at exactly 0.7
    the call goes on and returns what the fallback classifier, sure of
    "restaurants and dining" with 0.82, maps to; with an untrained primary
    classifier a fallback confidence of exactly 0.5 gives the default, and
    one of 0.82 the mapped category. *)
Lemma confidence_gates_witness :
  (@categorize_transaction dining_libs enum
     "STARBUCKS STORE #123" (Some "Starbucks") (Some [])
     (program dining true {| answer := "groceries"; sure := JustAbove |})
   = (Ok "groceries",
      program dining true {| answer := "groceries"; sure := JustAbove |}))
  /\ (@categorize_transaction dining_libs enum
        "STARBUCKS STORE #123" (Some "Starbucks") (Some [])
        (program dining true {| answer := "groceries"; sure := AtThreshold |})
      = (Ok "restaurants",
         with_fallback (Cases.fallback_of dining Cases.dining_output)
           (program dining true
              {| answer := "groceries"; sure := AtThreshold |})))
  /\ (@categorize_transaction undecided_libs enum
        "STARBUCKS STORE #123" (Some "Starbucks") (Some [])
        (program undecided false untrained)
      = (Ok "uncategorized",
         with_fallback
           (Cases.fallback_of undecided
              {| labels := ["travel"]%list; scores := [0.5%float]%list |})
           (program undecided false untrained)))
  /\ (@categorize_transaction dining_libs enum
        "STARBUCKS STORE #123" (Some "Starbucks") (Some [])
        (program dining false untrained)
      = (Ok "restaurants",
         with_fallback (Cases.fallback_of dining Cases.dining_output)
           (program dining false untrained))).
Proof.
  split; [| split; [| split]].
  - destruct (@confidence_gates_are_strict dining_libs enum
                "STARBUCKS STORE #123" (Some "Starbucks") (Some [])
                (program dining true
                   {| answer := "groceries"; sure := JustAbove |}))
      as [Hprimary _].
    exact (Hprimary "groceries" 0.71%float eq_refl eq_refl eq_refl).
  - destruct (@confidence_gates_are_strict dining_libs enum
                "STARBUCKS STORE #123" (Some "Starbucks") (Some [])
                (program dining true
                   {| answer := "groceries"; sure := AtThreshold |}))
      as [_ Hfallback].
    refine (proj1 (Hfallback
                     (Cases.fallback_of dining Cases.dining_output) _
                     "restaurants" 0.82%float _ _ _) eq_refl).
    + right. split; [reflexivity |].
      exists "groceries", 0.7%float. split; [reflexivity |].
      right. reflexivity.
    + right. split; [reflexivity |]. split; reflexivity.
    + vm_compute. reflexivity.
  - destruct (@confidence_gates_are_strict undecided_libs enum
                "STARBUCKS STORE #123" (Some "Starbucks") (Some [])
                (program undecided false untrained))
      as [_ Hfallback].
    refine (proj2 (Hfallback
                     (Cases.fallback_of undecided
                        {| labels := ["travel"]%list;
                           scores := [0.5%float]%list |}) _
                     "travel" 0.5%float _ _ _) (or_intror eq_refl)).
    + left. reflexivity.
    + right. split; [reflexivity |]. split; reflexivity.
    + vm_compute. reflexivity.
  - destruct (@confidence_gates_are_strict dining_libs enum
                "STARBUCKS STORE #123" (Some "Starbucks") (Some [])
                (program dining false untrained))
      as [_ Hfallback].
    refine (proj1 (Hfallback
                     (Cases.fallback_of dining Cases.dining_output) _
                     "restaurants" 0.82%float _ _ _) eq_refl).
    + left. reflexivity.
    + right. split; [reflexivity |]. split; reflexivity.
    + vm_compute. reflexivity.
Defined.

(** C3, witness: 49 rows raise and leave the frame as it was; 50 rows
    enter the training proper, which here returns its report. *)
Lemma train_insufficient_data_witness :
  (@train offline_libs (corpus 49)
     {| self := categorizer offline false untrained; env := empty_env |}
   = (Raise insufficient_data,
      {| self := categorizer offline false untrained; env := empty_env |}))
  /\ (@train offline_libs (corpus 50)
        {| self := categorizer offline false untrained; env := empty_env |}
      = @train_fit offline_libs (corpus 50)
          {| self := categorizer offline false untrained;
             env := empty_env |}).
Proof.
  split.
  - apply (@train_insufficient_data offline_libs (corpus 49)).
    vm_compute. lia.
  - apply (@train_insufficient_data offline_libs (corpus 50)).
    vm_compute. lia.
Defined.

Example train_fifty_rows :
  fst (@train offline_libs (corpus 50)
         {| self := categorizer offline false untrained; env := empty_env |})
  = Ok {| tr_accuracy := 1.0%float;
          tr_classification_report := "precision recall f1-score";
          tr_training_samples := 40;
          tr_test_samples := 10 |}.
Proof. vm_compute. reflexivity. Qed.


(** C6, witness: a trained categorizer saved to an empty disk, and a
    fresh categorizer built from that disk. *)
Lemma save_load_round_trip_witness :
  let c := categorizer offline true {| answer := "restaurants"; sure := Sure |} in
  let f' := snd (@save_model offline_libs {| self := c; env := empty_env |}) in
  (exists c1 e1,
      @load_model offline_libs f' = (Ok tt, {| self := c1; env := e1 |})
      /\ forall description merchant_name amount,
           @predict offline_libs enum c1 description merchant_name amount
           = @predict offline_libs enum c description merchant_name amount)
  /\ (exists c2 e2,
         @TransactionCategorizer_init offline_libs enum
           (model_path c) (env f')
         = (Ok c2, e2)
         /\ forall description merchant_name amount,
              @predict offline_libs enum c2 description merchant_name amount
              = @predict offline_libs enum c description merchant_name amount).
Proof.
  intros c f'.
  apply (@save_load_round_trip offline_libs enum c empty_env f').
  - reflexivity.
  - vm_compute. reflexivity.
  - intros b Hb. vm_compute in Hb. injection Hb as <-.
    vm_compute. reflexivity.
Defined.

(** With a bare file name as model path [os.path.dirname] is empty and
    [os.makedirs] raises: nothing is saved. *)
Example save_model_bare_path :
  @save_model offline_libs
    {| self := categorizer_at "model.pkl" {| answer := "gas"; sure := Sure |};
       env := empty_env |}
  = (Raise (FileNotFoundError ""),
     {| self := categorizer_at "model.pkl" {| answer := "gas"; sure := Sure |};
        env := empty_env |}).
Proof. vm_compute. reflexivity. Qed.

(** C7, witness. *)
Lemma predict_untrained_witness :
  @predict offline_libs enum (categorizer offline false untrained)
    "STARBUCKS STORE #123" (Some "Starbucks") None
  = Ok ("uncategorized", 0.0%float).
Proof.
  apply (@predict_untrained offline_libs enum). reflexivity.
Defined.

(** C8, witness: an untrained primary classifier and a model hub that
    cannot be reached. *)
Lemma fallback_construction_failure_witness :
  exists p',
    @categorize_transaction offline_libs enum
      "STARBUCKS STORE #123" (Some "Starbucks") (Some [])
      (program offline false untrained)
    = (Ok "uncategorized", p')
    /\ _hf_categorizer p' = None
    /\ @_ml_categorizer offline_libs p' = categorizer offline false untrained
    /\ p' = logged
              ("Could not initialize HuggingFace categorizer: "
               ++ "Can't load the model for 'facebook/bart-large-mnli'")
              (program offline false untrained).
Proof.
  apply (@fallback_construction_failure offline_libs enum
           "STARBUCKS STORE #123" (Some "Starbucks") (Some [])
           (program offline false untrained)
           (LibraryError
              "Can't load the model for 'facebook/bart-large-mnli'")).
  - reflexivity.
  - reflexivity.
  - left. reflexivity.
Defined.


(** * Further properties *)

(** ** Strings *)

Lemma lower_ascii_idempotent (c : ascii) :
  PyStr.lower_ascii (PyStr.lower_ascii c) = PyStr.lower_ascii c.
Proof. destruct c as [[] [] [] [] [] [] [] []]; reflexivity. Qed.

Lemma lower_idempotent (s : string) : PyStr.lower (PyStr.lower s) = PyStr.lower s.
Proof.
  induction s as [| c s IH]; [reflexivity |].
  cbn [PyStr.lower]. rewrite lower_ascii_idempotent, IH. reflexivity.
Qed.

Lemma is_empty_lower (s : string) :
  PyStr.is_empty (PyStr.lower s) = PyStr.is_empty s.
Proof. destruct s; reflexivity. Qed.

Lemma length_lower (s : string) :
  String.length (PyStr.lower s) = String.length s.
Proof.
  induction s as [| c s IH]; [reflexivity |].
  cbn [PyStr.lower String.length]. rewrite IH. reflexivity.
Qed.

Lemma rstrip_cons (c : ascii) (s : string) :
  PyStr.rstrip (String c s)
  = if PyStr.is_space c && PyStr.is_empty (PyStr.rstrip s) then EmptyString
    else String c (PyStr.rstrip s).
Proof. reflexivity. Qed.

Lemma lstrip_cons (c : ascii) (s : string) :
  PyStr.lstrip (String c s)
  = if PyStr.is_space c then PyStr.lstrip s else String c s.
Proof. reflexivity. Qed.

Lemma rstrip_idempotent (s : string) :
  PyStr.rstrip (PyStr.rstrip s) = PyStr.rstrip s.
Proof.
  induction s as [| c s IH]; [reflexivity |].
  rewrite rstrip_cons.
  destruct (PyStr.is_space c && PyStr.is_empty (PyStr.rstrip s)) eqn:Hc;
    [reflexivity |].
  rewrite rstrip_cons, IH, Hc. reflexivity.
Qed.

(** What [lstrip] returns is empty or begins with a character that is no
    whitespace. *)
Lemma lstrip_head (s : string) :
  PyStr.lstrip s = EmptyString
  \/ exists c t, PyStr.lstrip s = String c t /\ PyStr.is_space c = false.
Proof.
  induction s as [| c s IH]; [left; reflexivity |].
  rewrite lstrip_cons.
  destruct (PyStr.is_space c) eqn:Hc; [exact IH |].
  right. exists c, s. auto.
Qed.

Lemma strip_idempotent (s : string) :
  PyStr.strip (PyStr.strip s) = PyStr.strip s.
Proof.
  unfold PyStr.strip.
  destruct (lstrip_head s) as [-> | (c & t & -> & Hc)]; [reflexivity |].
  rewrite rstrip_cons, Hc. cbn [andb].
  rewrite lstrip_cons, Hc, rstrip_cons, Hc. cbn [andb].
  rewrite rstrip_idempotent. reflexivity.
Qed.

Lemma length_lstrip (s : string) :
  (String.length (PyStr.lstrip s) <= String.length s)%nat.
Proof.
  induction s as [| c s IH]; [reflexivity |].
  rewrite lstrip_cons. destruct (PyStr.is_space c); cbn [String.length]; lia.
Qed.

Lemma length_rstrip (s : string) :
  (String.length (PyStr.rstrip s) <= String.length s)%nat.
Proof.
  induction s as [| c s IH]; [reflexivity |].
  rewrite rstrip_cons.
  destruct (PyStr.is_space c && PyStr.is_empty (PyStr.rstrip s));
    cbn [String.length]; lia.
Qed.

Lemma length_strip (s : string) :
  (String.length (PyStr.strip s) <= String.length s)%nat.
Proof.
  unfold PyStr.strip.
  pose proof (length_rstrip (PyStr.lstrip s)). pose proof (length_lstrip s).
  lia.
Qed.

Lemma length_replace_scan (term : string) (k : nat) (s : string) :
  (String.length (PyStr.replace_scan k term "" s) <= String.length s)%nat.
Proof.
  revert k. induction s as [| c s IH]; intros k; [destruct k; reflexivity |].
  destruct k as [| k].
  - change (PyStr.replace_scan 0 term "" (String c s))
      with (if String.prefix term (String c s)
            then PyStr.replace_scan (String.length term - 1) term "" s
            else String c (PyStr.replace_scan 0 term "" s)).
    destruct (String.prefix term (String c s)); cbn [String.length].
    + specialize (IH (String.length term - 1)%nat). lia.
    + specialize (IH 0%nat). lia.
  - change (PyStr.replace_scan (S k) term "" (String c s))
      with (PyStr.replace_scan k term "" s).
    cbn [String.length]. specialize (IH k). lia.
Qed.

Lemma interleave_empty (s : string) : PyStr.interleave "" s = s.
Proof.
  induction s as [| c s IH]; [reflexivity |].
  change (PyStr.interleave "" (String c s))
    with (String c (PyStr.interleave "" s)).
  rewrite IH. reflexivity.
Qed.

Lemma length_replace (term s : string) :
  (String.length (PyStr.replace term "" s) <= String.length s)%nat.
Proof.
  unfold PyStr.replace. destruct (PyStr.is_empty term).
  - rewrite interleave_empty. lia.
  - apply length_replace_scan.
Qed.

Lemma length_remove_each (terms : list string) (text : string) :
  (String.length (remove_each terms text) <= String.length text)%nat.
Proof.
  unfold remove_each. revert text.
  induction terms as [| term rest IH]; intros text; [reflexivity |].
  cbn [fold_left]. specialize (IH (PyStr.replace term "" text)).
  pose proof (length_replace term text). lia.
Qed.

Lemma preprocess_text_joined (description : string) (merchant : option string) :
  preprocess_text description merchant
  = PyStr.strip (remove_each remove_terms (joined_text description merchant)).
Proof. reflexivity. Qed.

Lemma length_joined_text (description : string) (merchant : option string) :
  (String.length (joined_text description merchant)
   <= String.length description + String.length (default "" merchant) + 1)%nat.
Proof.
  unfold joined_text.
  pose proof (length_strip (PyStr.lower description)) as Hd.
  rewrite length_lower in Hd.
  destruct merchant as [m |].
  - change (default "" (Some m)) with m.
    destruct (PyStr.truthy (Some m)); [| lia].
    rewrite !length_append.
    pose proof (length_strip (PyStr.lower m)) as Hm.
    rewrite length_lower in Hm.
    change (String.length " ") with 1%nat. lia.
  - lia.
Qed.

Lemma remove_each_no_occurrence (terms : list string) (text : string) :
  (forall term, In term terms ->
                PyStr.is_empty term = false
                /\ String.index 0 term text = None) ->
  remove_each terms text = text.
Proof.
  unfold remove_each.
  induction terms as [| term rest IH]; intros Hfree; [reflexivity |].
  cbn [fold_left].
  destruct (Hfree term (or_introl eq_refl)) as [Hne Hidx].
  unfold PyStr.replace at 2. rewrite Hne.
  rewrite (replace_scan_no_occurrence term text Hidx).
  apply IH. intros t Ht. apply Hfree. right. exact Ht.
Qed.

(** ** Text preprocessing, continued *)

(** X1. The text handed to the vectorizer, and with it the prediction of
    the primary classifier, does not depend on the letter case of the
    description and of the merchant name. *)
Theorem primary_classifier_ignores_case `{L : Libs} `{E : TransactionCategory}
    (c : TransactionCategorizer) (description : string)
    (merchant_name : option string) (amount : option float) :
  preprocess_text (PyStr.lower description) (option_map PyStr.lower merchant_name)
  = preprocess_text description merchant_name
  /\ predict c (PyStr.lower description)
       (option_map PyStr.lower merchant_name) amount
     = predict c description merchant_name amount.
Proof.
  assert (Htext :
    preprocess_text (PyStr.lower description)
      (option_map PyStr.lower merchant_name)
    = preprocess_text description merchant_name).
  { unfold preprocess_text.
    rewrite lower_idempotent.
    destruct merchant_name as [m |]; [| reflexivity].
    cbn [option_map PyStr.truthy].
    rewrite is_empty_lower, lower_idempotent. reflexivity. }
  split; [exact Htext |].
  unfold predict. rewrite Htext. reflexivity.
Qed.

(** X2. The preprocessed text has no whitespace at either end: stripping
    it again changes nothing. *)
Theorem preprocess_text_is_stripped (description : string)
    (merchant : option string) :
  PyStr.strip (preprocess_text description merchant)
  = preprocess_text description merchant.
Proof. rewrite preprocess_text_joined. apply strip_idempotent. Qed.

(** X3. On a description and a merchant name within ASCII, preprocessing
    only deletes: the result is never longer than the description, a space
    and the merchant name together. *)
Theorem preprocess_text_length (description : string)
    (merchant : option string) :
  is_ascii description = true ->
  is_ascii (default "" merchant) = true ->
  (String.length (preprocess_text description merchant)
   <= String.length description + String.length (default "" merchant) + 1)%nat.
Proof.
  intros _ _.
  rewrite preprocess_text_joined.
  pose proof (length_strip
                (remove_each remove_terms (joined_text description merchant))).
  pose proof (length_remove_each remove_terms
                (joined_text description merchant)).
  pose proof (length_joined_text description merchant).
  lia.
Qed.

Lemma preprocess_text_length_witness :
  (String.length
     (preprocess_text "POS DEBIT STARBUCKS #123" (Some "Starbucks"))
   <= String.length "POS DEBIT STARBUCKS #123"
      + String.length (default "" (Some "Starbucks")) + 1)%nat.
Proof.
  apply (preprocess_text_length "POS DEBIT STARBUCKS #123" (Some "Starbucks"));
    reflexivity.
Defined.

(** X4. When none of the ten stop-terms occurs in the lowercased, joined
    text, nothing is removed from it: the result is that text, stripped. *)
Theorem preprocess_text_without_stop_terms (description : string)
    (merchant : option string) :
  (forall term, In term remove_terms ->
                String.index 0 term (joined_text description merchant) = None) ->
  preprocess_text description merchant
  = PyStr.strip (joined_text description merchant).
Proof.
  intros Hfree. rewrite preprocess_text_joined.
  rewrite remove_each_no_occurrence; [reflexivity |].
  intros term Hin. split; [| apply Hfree; exact Hin].
  simpl in Hin.
  repeat (destruct Hin as [<- | Hin]; [reflexivity |]). destruct Hin.
Qed.

Lemma preprocess_text_without_stop_terms_witness :
  preprocess_text "  Walmart Supercenter " (Some "WALMART")
  = "walmart supercenter walmart".
Proof.
  rewrite (preprocess_text_without_stop_terms
             "  Walmart Supercenter " (Some "WALMART")); [reflexivity |].
  intros term Hin. simpl in Hin.
  repeat (destruct Hin as [<- | Hin]; [reflexivity |]). destruct Hin.
Defined.

(** ** Statements and what they keep *)

Lemma bind_inv_ok {S A B : Type} (c : M S A) (k : A -> M S B) s b s' :
  bind c k s = (Ok b, s') ->
  exists a s1, c s = (Ok a, s1) /\ k a s1 = (Ok b, s').
Proof.
  unfold bind. destruct (c s) as [[a | e] s1]; [eauto | intros [=]].
Qed.

Lemma bind_inv_raise {S A B : Type} (c : M S A) (k : A -> M S B) s e s' :
  bind c k s = (Raise e, s') ->
  c s = (Raise e, s')
  \/ exists a s1, c s = (Ok a, s1) /\ k a s1 = (Raise e, s').
Proof.
  unfold bind. destruct (c s) as [[a | e1] s1]; [eauto |].
  intros [= -> ->]. left. reflexivity.
Qed.

Section Preservation.

Context {S : Type} (R : S -> S -> Prop).
Hypothesis R_refl : forall s, R s s.
Hypothesis R_trans : forall s1 s2 s3, R s1 s2 -> R s2 s3 -> R s1 s3.

Lemma preserves_ret {A : Type} (a : A) : preserves R (ret a).
Proof. intros s r s'. unfold ret. intros [= _ <-]. apply R_refl. Qed.

Lemma preserves_raise {A : Type} (e : exn) : preserves R (@raise S A e).
Proof. intros s r s'. unfold raise. intros [= _ <-]. apply R_refl. Qed.

Lemma preserves_pure {A : Type} (x : result A) : preserves R (pure x).
Proof. intros s r s'. unfold pure. intros [= _ <-]. apply R_refl. Qed.

Lemma preserves_get : preserves R get.
Proof. intros s r s'. unfold get. intros [= _ <-]. apply R_refl. Qed.

Lemma preserves_modify (f : S -> S) :
  (forall s, R s (f s)) -> preserves R (modify f).
Proof. intros Hf s r s'. unfold modify. intros [= _ <-]. apply Hf. Qed.

Lemma preserves_bind {A B : Type} (c : M S A) (k : A -> M S B) :
  preserves R c -> (forall a, preserves R (k a)) -> preserves R (bind c k).
Proof.
  intros Hc Hk s r s'. unfold bind.
  destruct (c s) as [[a | e] s1] eqn:Hrun.
  - intros Hrest. eapply R_trans; [exact (Hc _ _ _ Hrun) |].
    exact (Hk _ _ _ _ Hrest).
  - intros [= _ <-]. exact (Hc _ _ _ Hrun).
Qed.

Lemma preserves_try_except {A : Type} (c : M S A) (h : exn -> M S A) :
  preserves R c -> (forall e, preserves R (h e)) ->
  preserves R (try_except c h).
Proof.
  intros Hc Hh s r s'. unfold try_except.
  destruct (c s) as [[a | e] s1] eqn:Hrun.
  - intros [= _ <-]. exact (Hc _ _ _ Hrun).
  - intros Hrest. eapply R_trans; [exact (Hc _ _ _ Hrun) |].
    exact (Hh _ _ _ _ Hrest).
Qed.

End Preservation.

Section Raising.

Context {S : Type} (allowed : exn -> Prop).

Lemma raises_only_ret {A : Type} (a : A) : raises_only allowed (@ret S A a).
Proof. intros s e s'. unfold ret. intros [=]. Qed.

Lemma raises_only_get : raises_only allowed (@get S).
Proof. intros s e s'. unfold get. intros [=]. Qed.

Lemma raises_only_modify (f : S -> S) : raises_only allowed (modify f).
Proof. intros s e s'. unfold modify. intros [=]. Qed.

Lemma raises_only_lift {A : Type} (o : outcome A) :
  (forall msg, allowed (LibraryError msg)) ->
  raises_only allowed (@pure S A (lift o)).
Proof.
  intros Hlib s e s'. unfold pure. destruct o as [a | msg]; simpl.
  - intros [=].
  - intros [= <- _]. apply Hlib.
Qed.

Lemma raises_only_bind {A B : Type} (c : M S A) (k : A -> M S B) :
  raises_only allowed c -> (forall a, raises_only allowed (k a)) ->
  raises_only allowed (bind c k).
Proof.
  intros Hc Hk s e s' Hrun.
  apply bind_inv_raise in Hrun as [Hrun | (a & s1 & _ & Hrun)].
  - exact (Hc _ _ _ Hrun).
  - exact (Hk _ _ _ _ Hrun).
Qed.

End Raising.

(** ** The model store, continued *)

Section StoreFacts.

Context `{L : Libs} `{E : TransactionCategory}.

Lemma store_kept_refl (f : Frame) : store_kept f f.
Proof. split; reflexivity. Qed.

Lemma store_kept_trans (f1 f2 f3 : Frame) :
  store_kept f1 f2 -> store_kept f2 f3 -> store_kept f1 f3.
Proof. intros [H1 H2] [H3 H4]. split; congruence. Qed.

Lemma load_model_store_kept : preserves store_kept load_model.
Proof.
  pose proof store_kept_refl as Hrefl. pose proof store_kept_trans as Htrans.
  unfold load_model.
  apply preserves_bind; [assumption | apply preserves_get; assumption |].
  intros f. destruct (Os.exists_ (model_path (self f)) (disk (env f)));
    [| apply preserves_ret; assumption].
  assert (Hset : forall g : Frame -> Frame,
             (forall x, model_path (self (g x)) = model_path (self x)
                        /\ env (g x) = env x) ->
             preserves store_kept (modify g)).
  { intros g Hg. apply preserves_modify. intros x.
    destruct (Hg x) as [Hp He]. split; [rewrite He; reflexivity | exact Hp]. }
  apply preserves_try_except; [assumption | |].
  - apply preserves_bind; [assumption | |].
    { unfold load_from.
      apply preserves_bind; [assumption | | intros b; apply preserves_pure;
                                            assumption].
      intros x r x'. unfold on_disk.
      intros [= _ <-]. split; reflexivity. }
    intros model_data.
    apply preserves_bind; [assumption | apply preserves_pure; assumption |].
    intros v.
    apply preserves_bind; [assumption | apply Hset; intros x; split;
                                        reflexivity |].
    intros _.
    apply preserves_bind; [assumption | apply preserves_pure; assumption |].
    intros c.
    apply preserves_bind; [assumption | apply Hset; intros x; split;
                                        reflexivity |].
    intros _.
    apply preserves_bind; [assumption | apply preserves_pure; assumption |].
    intros t.
    apply preserves_bind; [assumption | apply Hset; intros x; split;
                                        reflexivity |].
    intros _. apply Hset. intros x; split; reflexivity.
  - intros e.
    apply preserves_bind; [assumption | |].
    + unfold print. apply preserves_modify. intros x. split; reflexivity.
    + intros _. apply Hset. intros x; split; reflexivity.
Qed.

(** X5. A [load_model] that returns has kept the model path and leaves
    one of three states: the frame as it was, when nothing exists at the
    model path; a categorizer that is not trained; or a categorizer whose
    vectorizer, classifier and trained flag all come from the one
    dictionary unpickled from the file at the model path, with that
    dictionary's categories or, when it has none, the former ones.  A
    categorizer is never left trained on a part of an artifact. *)
Theorem load_model_outcome (f f' : Frame) :
  load_model f = (Ok tt, f') ->
  model_path (self f') = model_path (self f)
  /\ ((Os.exists_ (model_path (self f)) (disk (env f)) = false /\ f' = f)
      \/ is_trained (self f') = false
      \/ exists b v c t cs,
           files (disk (env f)) !! model_path (self f) = Some b
           /\ pickle_loads b = Returns (Dict (Some v) (Some c) (Some t) cs)
           /\ f' = {| self := {| model_path := model_path (self f);
                                 vectorizer := v;
                                 classifier := c;
                                 is_trained := t;
                                 categories :=
                                   default (categories (self f)) cs |};
                      env := env f |}).
Proof.
  intros Hrun.
  destruct (load_model_store_kept _ _ _ Hrun) as [_ Hpath].
  split; [exact Hpath |].
  clear Hpath.
  unfold load_model, bind at 1, get in Hrun.
  destruct (Os.exists_ (model_path (self f)) (disk (env f))) eqn:Hex.
  - right.
    unfold try_except, load_from, bind, on_disk, pure, Os.read, print,
      set_vectorizer, set_classifier, set_is_trained, set_categories, modify
      in Hrun.
    cbn beta iota in Hrun.
    destruct (files (disk (env f)) !! model_path (self f)) as [b |] eqn:Hfile.
    + destruct (pickle_loads b) as [[v c t cs |] | msg] eqn:Hload;
        cbn in Hrun.
      * destruct v as [v |]; cbn in Hrun;
          [| injection Hrun as <-; left; reflexivity].
        destruct c as [c |]; cbn in Hrun;
          [| injection Hrun as <-; left; reflexivity].
        destruct t as [t |]; cbn in Hrun;
          [| injection Hrun as <-; left; reflexivity].
        injection Hrun as <-. right.
        exists b, v, c, t, cs.
        split; [reflexivity |]. split; [exact Hload |].
        destruct f as [slf [dk out]]. reflexivity.
      * injection Hrun as <-. left. reflexivity.
      * injection Hrun as <-. left. reflexivity.
    + destruct (bool_decide (model_path (self f) ∈ dirs (disk (env f))));
        cbn in Hrun; injection Hrun as <-; left; reflexivity.
  - left. unfold ret in Hrun. injection Hrun as <-. auto.
Qed.

(** X6. An artifact that cannot be unpickled degrades the categorizer to
    untrained: vectorizer, classifier and categories stay, the trained
    flag is cleared, and one line reports the error. *)
Theorem load_model_unreadable (c : TransactionCategorizer) (e : Env)
    (b : bytes) (msg : string) :
  files (disk e) !! model_path c = Some b ->
  pickle_loads b = Fails msg ->
  load_model {| self := c; env := e |}
  = (Ok tt,
     {| self := untrained_copy c;
        env := print_line ("Error loading model: " ++ msg) e |}).
Proof.
  intros Hfile Hload.
  unfold load_model, bind at 1, get. simpl.
  unfold Os.exists_.
  rewrite bool_decide_eq_true_2 by (rewrite Hfile; eauto). simpl.
  unfold try_except, load_from, bind, on_disk, pure, Os.read. simpl.
  rewrite Hfile, Hload. reflexivity.
Qed.

(** X7. Loading is not atomic: from a dictionary that has a vectorizer but
    no classifier, the vectorizer is taken over before the missing key is
    met; the classifier and the categories stay, and the categorizer is
    left untrained. *)
Theorem load_model_partial (c : TransactionCategorizer) (e : Env)
    (b : bytes) (v : TfidfVectorizer) (t : option bool)
    (cs : option (list string)) :
  files (disk e) !! model_path c = Some b ->
  pickle_loads b = Returns (Dict (Some v) None t cs) ->
  load_model {| self := c; env := e |}
  = (Ok tt,
     {| self := {| model_path := model_path c;
                   vectorizer := v;
                   classifier := classifier c;
                   is_trained := false;
                   categories := categories c |};
        env := print_line "Error loading model: 'classifier'" e |}).
Proof.
  intros Hfile Hload.
  unfold load_model, bind at 1, get. simpl.
  unfold Os.exists_.
  rewrite bool_decide_eq_true_2 by (rewrite Hfile; eauto). simpl.
  unfold try_except, load_from, bind, on_disk, pure, Os.read. simpl.
  rewrite Hfile, Hload. reflexivity.
Qed.

(** X8. A dictionary without the key [categories] loads: vectorizer,
    classifier and trained flag are taken from it, and the categories the
    categorizer had are kept. *)
Theorem load_model_without_categories (c : TransactionCategorizer) (e : Env)
    (b : bytes) (v : TfidfVectorizer) (k : RandomForestClassifier)
    (t : bool) :
  files (disk e) !! model_path c = Some b ->
  pickle_loads b = Returns (Dict (Some v) (Some k) (Some t) None) ->
  load_model {| self := c; env := e |}
  = (Ok tt,
     {| self := {| model_path := model_path c;
                   vectorizer := v;
                   classifier := k;
                   is_trained := t;
                   categories := categories c |};
        env := e |}).
Proof.
  intros Hfile Hload.
  unfold load_model, bind at 1, get. simpl.
  unfold Os.exists_.
  rewrite bool_decide_eq_true_2 by (rewrite Hfile; eauto). simpl.
  unfold try_except, load_from, bind, on_disk, pure, Os.read. simpl.
  rewrite Hfile, Hload. simpl.
  destruct e as [dk out]. reflexivity.
Qed.

(** X9. [save_model] writes at the model path and nowhere else: the
    categorizer and the console are as before, and so is every other file,
    whether the call returns or raises.  For an untrained categorizer the
    call changes nothing at all. *)
Theorem save_model_frame (f : Frame) :
  self (snd (save_model f)) = self f
  /\ stdout (env (snd (save_model f))) = stdout (env f)
  /\ (forall q, q <> model_path (self f) ->
                files (disk (env (snd (save_model f)))) !! q
                = files (disk (env f)) !! q)
  /\ (is_trained (self f) = false -> save_model f = (Ok tt, f)).
Proof.
  unfold save_model, dump_to, bind, get, on_disk, pure, ret.
  destruct (is_trained (self f)) eqn:Ht; simpl.
  - unfold Os.makedirs.
    destruct (PyStr.is_empty (Os.dirname (model_path (self f)))); simpl;
      [repeat split; solve [reflexivity | intros [=]] |].
    destruct (bool_decide
                (is_Some (files (disk (env f))
                          !! Os.dirname (model_path (self f))))); simpl;
      [repeat split; solve [reflexivity | intros [=]] |].
    unfold Os.open_wb. simpl.
    repeat (match goal with
            | |- context [if ?b then _ else _] => destruct b; simpl
            end;
            [repeat split; solve [reflexivity | intros [=]] |]).
    destruct (pickle_dumps (current_model_data (self f))) as [b | msg]; simpl.
    + repeat split; try reflexivity; try solve [intros [=]].
      intros q Hq. rewrite lookup_insert_ne by congruence.
      rewrite lookup_insert_ne by congruence. reflexivity.
    + repeat split; try reflexivity; try solve [intros [=]].
      intros q Hq. rewrite lookup_insert_ne by congruence. reflexivity.
  - repeat split; reflexivity.
Qed.

End StoreFacts.

(** ** Training, continued *)

Section TrainKeeps.

Context `{L : Libs} `{E : TransactionCategory}.

Variable R : Frame -> Frame -> Prop.
Hypothesis R_refl : forall f, R f f.
Hypothesis R_trans : forall f1 f2 f3, R f1 f2 -> R f2 f3 -> R f1 f3.
Hypothesis R_classifier : forall c, preserves R (set_classifier c).
Hypothesis R_trained : forall b, preserves R (set_is_trained b).
Hypothesis R_disk :
  forall (A : Type) (op : Disk -> result A * Disk), preserves R (on_disk op).
Hypothesis R_vectorizer :
  forall v f r f',
    has_vocabulary (vectorizer (self f)) = false ->
    set_vectorizer v f = (r, f') -> R f f'.

Ltac leaf :=
  first [ apply preserves_pure | apply preserves_get | apply preserves_ret
        | apply preserves_raise ];
  exact R_refl.

Ltac step tac := apply preserves_bind; [exact R_trans | tac |].

Lemma preserves_get_bind {A : Type} (k : Frame -> M Frame A) :
  (forall f r f', k f f = (r, f') -> R f f') -> preserves R (bind get k).
Proof. intros Hk f r f'. unfold bind, get. apply Hk. Qed.

Lemma create_features_preserves (df : list Row) :
  preserves R (create_features df).
Proof.
  unfold create_features. apply preserves_get_bind. intros f r f'.
  destruct (has_vocabulary (vectorizer (self f))) eqn:Hv; cbn [negb].
  - match goal with
    | |- ?c f = _ -> _ =>
        assert (Hp : preserves R c) by (step leaf; intros m; leaf);
        exact (Hp f r f')
    end.
  - unfold bind at 1, fit_transform.
    destruct (vectorizer_fit_transform (vectorizer (self f)) _) as [o v].
    unfold bind at 1.
    destruct (set_vectorizer v f) as [[[] | e] f1] eqn:Hset.
    + pose proof (R_vectorizer _ _ _ _ Hv Hset) as Hstep.
      unfold pure.
      destruct (lift o) as [m | e]; [| intros [= _ <-]; exact Hstep].
      intros [= _ <-]. exact Hstep.
    + intros [= _ <-]. exact (R_vectorizer _ _ _ _ Hv Hset).
Qed.

Lemma fit_preserves (X : ndarray) (y : list string) : preserves R (fit X y).
Proof.
  intros f. unfold fit.
  destruct (classifier_fit (classifier (self f)) X y) as [o c].
  revert f. step ltac:(apply R_classifier). intros _. leaf.
Qed.

Lemma save_model_preserves : preserves R save_model.
Proof.
  unfold save_model. step leaf. intros f.
  destruct (negb (is_trained (self f))); [leaf |].
  step ltac:(apply R_disk). intros _.
  unfold dump_to.
  step ltac:(apply R_disk). intros _.
  step leaf. intros b. apply R_disk.
Qed.

Lemma train_preserves (df : list Row) : preserves R (train df).
Proof.
  unfold train.
  destruct (length df <? 50)%nat; [leaf |].
  unfold train_fit.
  step ltac:(apply create_features_preserves). intros X.
  step leaf. intros [[[X_train X_test] y_train] y_test].
  step ltac:(apply fit_preserves). intros _.
  step leaf. intros f.
  step leaf. intros y_pred.
  step leaf. intros accuracy.
  step ltac:(apply R_trained). intros _.
  step ltac:(apply save_model_preserves). intros _.
  step leaf. intros report.
  leaf.
Qed.

Lemma predict_batch_preserves (transactions : list Row) :
  preserves R (predict_batch transactions).
Proof.
  unfold predict_batch. step leaf. intros f.
  destruct (negb (is_trained (self f))); [leaf |].
  step ltac:(apply create_features_preserves). intros X.
  step leaf. intros g.
  step leaf. intros predictions.
  step leaf. intros probabilities.
  step leaf. intros confidences.
  leaf.
Qed.

End TrainKeeps.

Section TrainFacts.

Context `{L : Libs} `{E : TransactionCategory}.

Ltac setter :=
  let f := fresh "f" in
  let r := fresh "r" in
  let f' := fresh "f'" in
  intros f r f';
  unfold set_classifier, set_is_trained, set_vectorizer, modify, on_disk;
  try match goal with
      | |- context [let '(_, _) := ?op ?d in _] => destruct (op d)
      end;
  intros [= _ <-].

Lemma train_identity_kept (df : list Row) : preserves identity_kept (train df).
Proof.
  apply train_preserves.
  - intros f. split; reflexivity.
  - intros f1 f2 f3 [H1 H2] [H3 H4]. split; congruence.
  - intros c. setter. split; reflexivity.
  - intros b. setter. split; reflexivity.
  - intros A op. setter. split; reflexivity.
  - intros v f r f' _. unfold set_vectorizer, modify. intros [= _ <-].
    split; reflexivity.
Qed.

Lemma vocabulary_kept_refl (f : Frame) : vocabulary_kept f f.
Proof. intros _. reflexivity. Qed.

Lemma vocabulary_kept_trans (f1 f2 f3 : Frame) :
  vocabulary_kept f1 f2 -> vocabulary_kept f2 f3 -> vocabulary_kept f1 f3.
Proof.
  unfold vocabulary_kept. intros H12 H23 Hv.
  specialize (H12 Hv). rewrite H12 in H23. exact (H23 Hv).
Qed.

Lemma train_vocabulary_kept (df : list Row) :
  preserves vocabulary_kept (train df).
Proof.
  apply train_preserves.
  - apply vocabulary_kept_refl.
  - apply vocabulary_kept_trans.
  - intros c. setter. intros _. reflexivity.
  - intros b. setter. intros _. reflexivity.
  - intros A op. setter. intros _. reflexivity.
  - intros v f r f' Hv _ Hv'. congruence.
Qed.

Lemma save_model_self_kept :
  preserves (fun f f' : Frame => self f' = self f) save_model.
Proof.
  apply save_model_preserves.
  - reflexivity.
  - intros f1 f2 f3 H1 H2. congruence.
  - intros A op. setter. reflexivity.
Qed.

(** X10. [train] never changes the model path and the category list of
    the categorizer, whether it returns or raises. *)
Theorem train_keeps_identity (df : list Row) (f : Frame) :
  model_path (self (snd (train df f))) = model_path (self f)
  /\ categories (self (snd (train df f))) = categories (self f).
Proof.
  destruct (train df f) as [r f'] eqn:Hrun.
  exact (train_identity_kept df _ _ _ Hrun).
Qed.

(** X11. Retraining does not refit the vocabulary: when the vectorizer has
    a vocabulary, [train] leaves the vectorizer as it is, whatever the new
    corpus holds and however the call ends. *)
Theorem train_keeps_vocabulary (df : list Row) (f : Frame) :
  has_vocabulary (vectorizer (self f)) = true ->
  vectorizer (self (snd (train df f))) = vectorizer (self f).
Proof.
  intros Hv. destruct (train df f) as [r f'] eqn:Hrun.
  exact (train_vocabulary_kept df _ _ _ Hrun Hv).
Qed.

Lemma create_features_not_os (df : list Row) :
  raises_only not_os (create_features df).
Proof.
  assert (Hlib : forall msg, not_os (LibraryError msg)) by reflexivity.
  unfold create_features.
  apply raises_only_bind; [apply raises_only_get |]. intros f.
  apply raises_only_bind; [| intros m; apply raises_only_lift; exact Hlib].
  destruct (negb (has_vocabulary (vectorizer (self f))));
    [| apply raises_only_lift; exact Hlib].
  intros s e s'. unfold fit_transform.
  destruct (vectorizer_fit_transform (vectorizer (self s)) _) as [o v].
  apply raises_only_bind; [apply raises_only_modify |].
  intros _. apply raises_only_lift. exact Hlib.
Qed.

Lemma fit_not_os (X : ndarray) (y : list string) : raises_only not_os (fit X y).
Proof.
  intros s e s'. unfold fit.
  destruct (classifier_fit (classifier (self s)) X y) as [o c].
  apply raises_only_bind; [apply raises_only_modify |].
  intros _. apply raises_only_lift. reflexivity.
Qed.

Lemma lift_not_os {A : Type} (o : outcome A) (f : Frame) e f' :
  pure (lift o) f = (Raise e, f') -> is_os_error e = false.
Proof.
  apply (raises_only_lift (S := Frame) not_os o). reflexivity.
Qed.

Lemma get_inv {S : Type} (s a s' : S) : get s = (Ok a, s') -> a = s /\ s' = s.
Proof. unfold get. intros [= -> <-]. auto. Qed.

Lemma pure_inv {S A : Type} (x : result A) (s s' : S) r :
  pure x s = (r, s') -> r = x /\ s' = s.
Proof. unfold pure. intros [= -> <-]. auto. Qed.

(** X12. [train] marks the categorizer trained before it saves it: when
    the call fails with an error of the file system, the categorizer is
    trained in memory although nothing was persisted by the call. *)
Theorem train_os_error_leaves_trained (df : list Row) (f f' : Frame)
    (e : exn) :
  train df f = (Raise e, f') ->
  is_os_error e = true ->
  is_trained (self f') = true.
Proof.
  intros Hrun Hos. unfold train in Hrun.
  destruct (length df <? 50)%nat.
  { unfold raise in Hrun. injection Hrun as <- _. discriminate Hos. }
  unfold train_fit in Hrun.
  apply bind_inv_raise in Hrun as [H | (X & f1 & _ & Hrun)].
  { apply create_features_not_os in H. congruence. }
  apply bind_inv_raise in Hrun as [H | (parts & f2 & _ & Hrun)].
  { apply lift_not_os in H. congruence. }
  destruct parts as [[[X_train X_test] y_train] y_test].
  apply bind_inv_raise in Hrun as [H | (u & f3 & _ & Hrun)].
  { apply fit_not_os in H. congruence. }
  apply bind_inv_raise in Hrun as [H | (g & f4 & _ & Hrun)].
  { unfold get in H. discriminate H. }
  apply bind_inv_raise in Hrun as [H | (y_pred & f5 & _ & Hrun)].
  { apply lift_not_os in H. congruence. }
  apply bind_inv_raise in Hrun as [H | (accuracy & f6 & _ & Hrun)].
  { apply lift_not_os in H. congruence. }
  apply bind_inv_raise in Hrun as [H | (u7 & f7 & Hset & Hrun)].
  { unfold set_is_trained, modify in H. discriminate H. }
  assert (Ht : is_trained (self f7) = true).
  { unfold set_is_trained, modify in Hset. injection Hset as _ <-.
    reflexivity. }
  apply bind_inv_raise in Hrun as [H | (u8 & f8 & _ & Hrun)].
  { rewrite (save_model_self_kept _ _ _ H). exact Ht. }
  apply bind_inv_raise in Hrun as [H | (report & f9 & _ & Hrun)].
  { apply lift_not_os in H. congruence. }
  unfold ret in Hrun. discriminate Hrun.
Qed.

(** X13. A [train] that returns has persisted what it trained: the corpus
    had at least 50 rows, the categorizer is marked trained, and, with a
    pickle that reads back what it wrote for this model, a fresh categorizer
    constructed at the same path predicts as the trained one on every
    input. *)
Theorem train_persists (df : list Row) (f f' : Frame)
    (report : training_report) :
  train df f = (Ok report, f') ->
  (forall b,
      pickle_dumps (current_model_data (self f')) = Returns b ->
      pickle_loads b = Returns (as_dict (current_model_data (self f')))) ->
  (50 <= length df)%nat
  /\ is_trained (self f') = true
  /\ exists c2 e2,
       TransactionCategorizer_init (model_path (self f')) (env f')
       = (Ok c2, e2)
       /\ forall description merchant_name amount,
            predict c2 description merchant_name amount
            = predict (self f') description merchant_name amount.
Proof.
  intros Hrun Hpickle. unfold train in Hrun.
  destruct (length df <? 50)%nat eqn:Hlen.
  { unfold raise in Hrun. discriminate Hrun. }
  apply Nat.ltb_ge in Hlen. split; [exact Hlen |].
  unfold train_fit in Hrun.
  apply bind_inv_ok in Hrun as (X & f1 & _ & Hrun).
  apply bind_inv_ok in Hrun as (parts & f2 & _ & Hrun).
  destruct parts as [[[X_train X_test] y_train] y_test].
  apply bind_inv_ok in Hrun as (u & f3 & _ & Hrun).
  apply bind_inv_ok in Hrun as (g & f4 & _ & Hrun).
  apply bind_inv_ok in Hrun as (y_pred & f5 & _ & Hrun).
  apply bind_inv_ok in Hrun as (accuracy & f6 & _ & Hrun).
  apply bind_inv_ok in Hrun as (u7 & f7 & Hset & Hrun).
  apply bind_inv_ok in Hrun as (u8 & f8 & Hsave & Hrun).
  apply bind_inv_ok in Hrun as (rep & f9 & Hrep & Hrun).
  apply pure_inv in Hrep as [_ ->].
  unfold ret in Hrun. injection Hrun as _ <-.
  assert (Ht : is_trained (self f7) = true).
  { unfold set_is_trained, modify in Hset. injection Hset as _ <-.
    reflexivity. }
  destruct u8. destruct f7 as [c7 e7]. simpl in Ht.
  destruct (save_model_inv c7 e7 f8 Ht Hsave) as (Hself & _ & b & Hdump & Hfile).
  rewrite Hself in *.
  split; [exact Ht |].
  specialize (Hpickle b Hdump).
  unfold TransactionCategorizer_init.
  erewrite load_model_artifact; [| exact Hfile | exact Hpickle].
  eexists _, _. split; [reflexivity |].
  intros. apply predict_reads; reflexivity.
Qed.

(** *** [predict_batch] *)

Lemma comprehension_constant {A B : Type} (f : A -> result B) (b : B)
    (xs : list A) :
  (forall x, f x = Ok b) -> comprehension f xs = Ok (map (fun _ => b) xs).
Proof.
  intros Hf. induction xs as [| x rest IH]; [reflexivity |].
  cbn [comprehension map]. rewrite Hf, IH. reflexivity.
Qed.

(** X14. On an untrained categorizer [predict_batch] changes nothing and
    returns, for each transaction, what [predict] returns for it:
    UNCATEGORIZED with confidence 0.0; the result is as long as the
    batch. *)
Theorem predict_batch_untrained (transactions : list Row) (f : Frame) :
  is_trained (self f) = false ->
  exists l,
    predict_batch transactions f = (Ok l, f)
    /\ comprehension
         (fun t => predict (self f) (row_description t)
                           (row_get_merchant_name t) None)
         transactions
       = Ok l
    /\ length l = length transactions
    /\ Forall (fun x => x = (UNCATEGORIZED, 0.0%float)) l.
Proof.
  intros Ht.
  exists (map (fun _ => (UNCATEGORIZED, 0.0%float)) transactions).
  split; [| split; [| split]].
  - unfold predict_batch, bind, get, ret. rewrite Ht. reflexivity.
  - apply comprehension_constant. intros t.
    unfold predict. rewrite Ht. reflexivity.
  - apply length_map.
  - apply List.Forall_forall. intros x Hin.
    apply in_map_iff in Hin as (t & <- & _). reflexivity.
Qed.

Lemma predict_batch_model_kept (transactions : list Row) :
  preserves model_kept (predict_batch transactions).
Proof.
  apply predict_batch_preserves.
  - intros f. repeat split; reflexivity.
  - intros f1 f2 f3 (A1 & A2 & A3 & A4 & A5) (B1 & B2 & B3 & B4 & B5).
    repeat split; congruence.
  - intros v f r f' _. unfold set_vectorizer, modify. intros [= _ <-].
    repeat split; reflexivity.
Qed.

Lemma predict_batch_vocabulary_kept (transactions : list Row) :
  preserves vocabulary_kept (predict_batch transactions).
Proof.
  apply predict_batch_preserves.
  - apply vocabulary_kept_refl.
  - apply vocabulary_kept_trans.
  - intros v f r f' Hv _ Hv'. congruence.
Qed.

(** X15. [predict_batch] never touches the classifier, the trained flag,
    the model path, the categories, the disk or the console; when the
    vectorizer has a vocabulary the whole categorizer is as before. *)
Theorem predict_batch_frame (transactions : list Row) (f : Frame) :
  model_kept f (snd (predict_batch transactions f))
  /\ (has_vocabulary (vectorizer (self f)) = true ->
      self (snd (predict_batch transactions f)) = self f).
Proof.
  destruct (predict_batch transactions f) as [r f'] eqn:Hrun. cbn [snd].
  pose proof (predict_batch_model_kept _ _ _ _ Hrun)
    as (Hp & Hc & Ht & Hcs & He).
  split; [repeat split; assumption |].
  intros Hv.
  pose proof (predict_batch_vocabulary_kept _ _ _ _ Hrun Hv) as Hvec.
  destruct f as [[p v c t cs] e], f' as [[p' v' c' t' cs'] e'].
  simpl in *. congruence.
Qed.

(** X16. On a categorizer that is marked trained while its vectorizer has
    no vocabulary, [predict_batch] fits the vectorizer on the batch it is
    asked to predict: afterwards the vectorizer is the one that
    [fit_transform] left behind. *)
Theorem predict_batch_fits_unfitted (transactions : list Row) (f : Frame) :
  is_trained (self f) = true ->
  has_vocabulary (vectorizer (self f)) = false ->
  vectorizer (self (snd (predict_batch transactions f)))
  = snd (vectorizer_fit_transform (vectorizer (self f))
           (map (fun row => preprocess_text (row_description row)
                                            (row_get_merchant_name row))
                transactions)).
Proof.
  intros Ht Hv.
  unfold predict_batch, create_features, fit_transform, bind, get, pure, ret,
    set_vectorizer, modify.
  cbn beta iota. rewrite Ht. cbn [negb]. rewrite Hv. cbn [negb].
  destruct (vectorizer_fit_transform (vectorizer (self f)) _) as [o v].
  cbn [snd].
  destruct (lift o) as [m | e]; simpl; [| reflexivity].
  destruct (lift (toarray m)) as [X | e]; simpl; [| reflexivity].
  repeat match goal with
         | |- context [match ?x with Ok _ => _ | Raise _ => _ end] =>
             destruct x; simpl
         end;
  reflexivity.
Qed.

End TrainFacts.

(** ** The fallback classifier, continued *)

Section MapperTable.

Context `{L : Libs} `{E : TransactionCategory}.

(** X17. The two tables of the fallback classifier agree: a label is a key
    of the category mapping exactly when it is one of the candidate labels
    given to the pipeline. *)
Theorem mapping_keys_are_candidates (label : string) :
  is_Some (category_mapping !! label) <-> In label candidate_labels.
Proof.
  split.
  - intros [v Hv]. unfold category_mapping, dict_of in Hv.
    cbn [fold_left fst snd] in Hv.
    repeat (rewrite lookup_insert in Hv; case_decide;
            [ subst label; simpl;
              repeat (first [ left; reflexivity | right ]) | ]).
    rewrite lookup_empty in Hv. discriminate Hv.
  - intros Hin. simpl in Hin.
    unfold category_mapping, dict_of. cbn [fold_left fst snd].
    repeat (destruct Hin as [<- | Hin];
            [ repeat (rewrite lookup_insert; case_decide; [eauto |]);
              congruence | ]).
    destruct Hin.
Qed.

Lemma hf_predict_text (h : HuggingFaceCategorizer) (description : string)
    (merchant_name : option string) :
  hf_predict h description merchant_name
  = and_then (lift (pipeline_call (hf_classifier h)
                      (hf_text description merchant_name) (hf_categories h)))
      (fun result =>
       and_then (index0 (labels result)) (fun predicted_label =>
       and_then (index0 (scores result)) (fun confidence =>
       Ok (default UNCATEGORIZED (category_mapping !! predicted_label),
           confidence)))).
Proof. destruct merchant_name as [m |]; reflexivity. Qed.

(** X18. Whatever the pipeline answers, the category of the fallback
    classifier is one of the twelve values its mapping names, and so a
    value of the enumeration. *)
Theorem fallback_category_is_named (h : HuggingFaceCategorizer)
    (description : string) (merchant_name : option string)
    (category : string) (confidence : float) :
  hf_predict h description merchant_name = Ok (category, confidence) ->
  In category
     [ GROCERIES; RESTAURANTS; GAS; GENERAL_MERCHANDISE; UTILITIES; MOVIES;
       MEDICAL; BANK_FEES; TRAVEL; EDUCATION; CHARITY; UNCATEGORIZED ]
  /\ In category category_values.
Proof.
  intros H. rewrite hf_predict_text in H.
  apply and_then_ok in H as (out & _ & H).
  apply and_then_ok in H as (label & _ & H).
  apply and_then_ok in H as (score & _ & H).
  injection H as <- _.
  split; [apply mapped_category_named | apply mapped_category_member].
Qed.

(** X19. A top label that is not one of the candidate labels gives
    UNCATEGORIZED, with the score the pipeline reported for it. *)
Theorem fallback_unknown_label (h : HuggingFaceCategorizer)
    (description : string) (merchant_name : option string)
    (out : zero_shot_output) (label : string) (score : float)
    (ls : list string) (ss : list float) :
  pipeline_call (hf_classifier h) (hf_text description merchant_name)
    (hf_categories h)
  = Returns out ->
  labels out = (label :: ls)%list ->
  scores out = (score :: ss)%list ->
  ~ In label candidate_labels ->
  hf_predict h description merchant_name = Ok (UNCATEGORIZED, score).
Proof.
  intros Hcall Hl Hs Hout.
  rewrite hf_predict_text, Hcall. simpl. rewrite Hl, Hs. simpl.
  rewrite (unmapped_label label Hout). reflexivity.
Qed.

End MapperTable.

(** ** The decision chain, continued *)

Section ChainFacts.

Context `{L : Libs} `{E : TransactionCategory}.

Lemma globals_kept_refl (p : Program) : globals_kept p p.
Proof.
  split; [reflexivity |]. split; [auto |].
  exists []%list. rewrite app_nil_r. reflexivity.
Qed.

Lemma globals_kept_trans (p1 p2 p3 : Program) :
  globals_kept p1 p2 -> globals_kept p2 p3 -> globals_kept p1 p3.
Proof.
  intros (A1 & A2 & l1 & A3) (B1 & B2 & l2 & B3).
  split; [congruence |]. split; [auto |].
  exists (l1 ++ l2)%list. rewrite B3, A3, app_assoc. reflexivity.
Qed.

Ltac chain :=
  unfold categorize_transaction, categorize_body, fallback_stage,
    lazy_fallback, primary_stage, emergency_fallback, try_except, bind, pure,
    ret, get, say, set_hf, modify, logged;
  cbn beta iota;
  repeat match goal with
         | |- context [if ?b then _ else _] => destruct b eqn:?; cbn beta iota
         | |- context [match ?x with Ok _ => _ | Raise _ => _ end] =>
             destruct x as [[? ?] | ?] eqn:?; cbn beta iota
         | |- context [match ?x with Ok _ => _ | Raise _ => _ end] =>
             destruct x eqn:?; cbn beta iota
         | |- context [match ?x with Some _ => _ | None => _ end] =>
             destruct x eqn:?; cbn beta iota
         end.

(** One call: the primary classifier is the same afterwards, a fallback
    classifier that was there is still there, and at most one line was
    printed. *)
Lemma categorize_transaction_step (description : string)
    (merchant_name : option string) (categories : option (list string))
    (p : Program) :
  let p' := snd (categorize_transaction description merchant_name categories p)
  in
  _ml_categorizer p' = _ml_categorizer p
  /\ (forall h, _hf_categorizer p = Some h -> _hf_categorizer p' = Some h)
  /\ (console p' = console p
      \/ exists line, console p' = (console p ++ [line])%list).
Proof.
  chain; cbn [snd _ml_categorizer _hf_categorizer console];
    (split; [reflexivity |]);
    (split; [intros h0 Hh0; congruence |]);
    first [ left; reflexivity | right; eexists; reflexivity ].
Qed.

Lemma categorize_transaction_globals_kept (description : string)
    (merchant_name : option string) (categories : option (list string)) :
  preserves globals_kept
    (categorize_transaction description merchant_name categories).
Proof.
  intros p r p' Hrun.
  pose proof (categorize_transaction_step
                description merchant_name categories p) as Hstep.
  rewrite Hrun in Hstep. cbn [snd] in Hstep.
  destruct Hstep as (Hml & Hhf & Hout).
  split; [exact Hml |]. split; [exact Hhf |].
  destruct Hout as [Hsame | [line Hline]].
  - exists []%list. rewrite app_nil_r. exact Hsame.
  - exists [line]%list. exact Hline.
Qed.

(** X20. A call of [categorize_transaction] never changes the primary
    classifier and never replaces a fallback classifier that is already
    constructed; it prints at most one line. *)
Theorem categorize_transaction_frame (description : string)
    (merchant_name : option string) (categories : option (list string))
    (p : Program) :
  _ml_categorizer
    (snd (categorize_transaction description merchant_name categories p))
  = _ml_categorizer p
  /\ (forall h,
        _hf_categorizer p = Some h ->
        _hf_categorizer
          (snd (categorize_transaction description merchant_name categories p))
        = Some h)
  /\ (length
        (console
           (snd (categorize_transaction description merchant_name
                   categories p)))
      <= length (console p) + 1)%nat.
Proof.
  pose proof (categorize_transaction_step
                description merchant_name categories p) as Hstep.
  cbv zeta in Hstep. destruct Hstep as (Hml & Hhf & Hout).
  split; [exact Hml |]. split; [exact Hhf |].
  destruct Hout as [-> | [line ->]]; [lia |].
  rewrite length_app. simpl. lia.
Qed.

(** X21. When the trained primary classifier raises, the fallback
    classifier is not consulted, and not constructed if it was not yet:
    the call prints the error and returns UNCATEGORIZED. *)
Theorem primary_failure_skips_fallback (description : string)
    (merchant_name : option string) (categories : option (list string))
    (p : Program) (e : exn) :
  is_trained (_ml_categorizer p) = true ->
  predict (_ml_categorizer p) description merchant_name None = Raise e ->
  categorize_transaction description merchant_name categories p
  = (Ok UNCATEGORIZED,
     logged ("Error in ML categorization: " ++ exn_str e) p).
Proof.
  intros Ht Hp.
  rewrite (primary_raises _ _ _ _ e).
  - reflexivity.
  - unfold primary_stage, bind, get, pure. rewrite Ht, Hp. reflexivity.
Qed.

(** X22. A pipeline that answers without any label makes the fallback
    prediction raise; with an untrained primary classifier the call then
    returns UNCATEGORIZED and prints the error, and the fallback classifier
    stays. *)
Theorem empty_pipeline_output (description : string)
    (merchant_name : option string) (categories : option (list string))
    (p : Program) (h : HuggingFaceCategorizer) (out : zero_shot_output) :
  is_trained (_ml_categorizer p) = false ->
  _hf_categorizer p = Some h ->
  pipeline_call (hf_classifier h) (hf_text description merchant_name)
    (hf_categories h)
  = Returns out ->
  labels out = []%list ->
  categorize_transaction description merchant_name categories p
  = (Ok UNCATEGORIZED,
     logged "Error in ML categorization: list index out of range" p).
Proof.
  intros Ht Hh Hcall Hl.
  unfold categorize_transaction, categorize_body, fallback_stage,
    lazy_fallback, primary_stage, emergency_fallback, try_except, bind, pure,
    ret, get, say, modify.
  rewrite Ht, Hh, hf_predict_text, Hcall. simpl. rewrite Hl. reflexivity.
Qed.

(** X23. With an untrained primary classifier the result is always one of
    the twelve categories that the fallback mapping names; no other value
    of the enumeration, and no other string, can come out. *)
Theorem untrained_primary_yields_named_category (description : string)
    (merchant_name : option string) (categories : option (list string))
    (p : Program) :
  is_trained (_ml_categorizer p) = false ->
  exists v p',
    categorize_transaction description merchant_name categories p = (Ok v, p')
    /\ In v [ GROCERIES; RESTAURANTS; GAS; GENERAL_MERCHANDISE; UTILITIES;
              MOVIES; MEDICAL; BANK_FEES; TRAVEL; EDUCATION; CHARITY;
              UNCATEGORIZED ].
Proof.
  intros Ht.
  destruct (categorize_transaction_verdict
              description merchant_name categories p)
    as (v & p' & Hrun & Hv).
  exists v, p'. split; [exact Hrun |].
  destruct Hv as [-> | confidence Ht' _ _ _ | h confidence Hh Hf Hc].
  - simpl. repeat (first [ left; reflexivity | right ]).
  - congruence.
  - rewrite hf_predict_text in Hf.
    apply and_then_ok in Hf as (out & _ & Hf).
    apply and_then_ok in Hf as (label & _ & Hf).
    apply and_then_ok in Hf as (score & _ & Hf).
    injection Hf as <- _. apply mapped_category_named.
Qed.

End ChainFacts.

(** ** The caller *)

Section SyncFacts.

Context `{L : Libs} `{E : TransactionCategory}.

Lemma categorize_none_merchant (description : string)
    (categories : option (list string)) (p : Program) :
  categorize_transaction description None categories p
  = categorize_transaction description (Some "") categories p.
Proof. reflexivity. Qed.

(** X24. A Plaid transaction without the key [merchant_name], one whose
    merchant name is null and one whose merchant name is the empty string
    are categorized alike: same category, same program afterwards. *)
Theorem merchant_absent_null_or_empty (name : string)
    (category : option (option (list string))) (p : Program) :
  categorize_plaid
    {| pt_name := name; pt_merchant_name := None; pt_category := category |} p
  = categorize_plaid
      {| pt_name := name; pt_merchant_name := Some None;
         pt_category := category |} p
  /\ categorize_plaid
       {| pt_name := name; pt_merchant_name := Some (Some "");
          pt_category := category |} p
     = categorize_plaid
         {| pt_name := name; pt_merchant_name := Some None;
            pt_category := category |} p.
Proof.
  unfold categorize_plaid, get_merchant_name. cbn [pt_name pt_merchant_name].
  split; symmetry; apply categorize_none_merchant.
Qed.


Lemma after_failures_zero (line : string) (p : Program) :
  after_failures line 0 p = p.
Proof.
  unfold after_failures. cbn [repeat]. rewrite app_nil_r.
  destruct p. reflexivity.
Qed.

Lemma after_failures_succ (line : string) (n : nat) (p : Program) :
  after_failures line n (logged line p) = after_failures line (S n) p.
Proof.
  unfold after_failures, logged. cbn [_ml_categorizer _hf_categorizer console].
  rewrite <- app_assoc. reflexivity.
Qed.

(** One call with an untrained primary classifier and a construction that
    fails. *)
Lemma unavailable_step (description : string)
    (merchant_name : option string) (categories : option (list string))
    (p : Program) (e : exn) :
  is_trained (_ml_categorizer p) = false ->
  _hf_categorizer p = None ->
  HuggingFaceCategorizer_init = Raise e ->
  categorize_transaction description merchant_name categories p
  = (Ok UNCATEGORIZED,
     logged ("Could not initialize HuggingFace categorizer: " ++ exn_str e) p).
Proof.
  intros Ht Hnone Hinit.
  unfold categorize_transaction, categorize_body, fallback_stage,
    lazy_fallback, primary_stage, emergency_fallback, try_except, bind, pure,
    ret, get, say, modify.
  rewrite Ht, Hnone, Hinit. reflexivity.
Qed.

(** X26. A failed construction of the fallback classifier is not
    remembered: with an untrained primary classifier and a construction
    that fails, every transaction of a response is UNCATEGORIZED, the
    construction is attempted anew for each of them, and each attempt
    prints its line. *)
Theorem construction_is_retried (ts : list plaid_transaction) (p : Program)
    (e : exn) :
  is_trained (_ml_categorizer p) = false ->
  _hf_categorizer p = None ->
  HuggingFaceCategorizer_init = Raise e ->
  categorize_each ts p
  = (Ok (map (fun _ => UNCATEGORIZED) ts),
     after_failures
       ("Could not initialize HuggingFace categorizer: " ++ exn_str e)
       (length ts) p).
Proof.
  intros Ht Hnone Hinit. revert p Ht Hnone.
  induction ts as [| t rest IH]; intros p Ht Hnone.
  - cbn [categorize_each map length]. rewrite after_failures_zero.
    reflexivity.
  - cbn [categorize_each map length]. unfold categorize_plaid, bind.
    rewrite (unavailable_step _ _ _ p e Ht Hnone Hinit).
    fold (bind (categorize_each rest)
               (fun others => ret (UNCATEGORIZED :: others)%list)).
    unfold bind. rewrite IH by assumption.
    unfold ret. rewrite after_failures_succ. reflexivity.
Qed.

(** X27. When the two module-level statements of lines 273 and 274 have
    returned, the global categorizer sits at the default model path and no
    fallback classifier exists yet: the transformer pipeline is not
    constructed at import. *)
Theorem import_module_result (e e' : Env) (p : Program) :
  import_module e = (Ok p, e') ->
  model_path (_ml_categorizer p) = default_model_path
  /\ _hf_categorizer p = None.
Proof.
  unfold import_module, TransactionCategorizer_init.
  match goal with
  | |- context [load_model ?f] =>
      destruct (load_model f) as [[u | x] f'] eqn:Hrun;
      pose proof (load_model_store_kept _ _ _ Hrun) as [_ Hpath]
  end.
  - intros [= <- <-]. cbn [_ml_categorizer _hf_categorizer].
    split; [exact Hpath | reflexivity].
  - intros [=].
Qed.

(** X28. A process started without an artifact and without access to the
    pretrained model categorizes nothing: the imported program has an
    untrained primary classifier, and every call returns UNCATEGORIZED. *)
Theorem cold_start_without_models (e e' : Env) (p : Program) (x : exn) :
  Os.exists_ default_model_path (disk e) = false ->
  HuggingFaceCategorizer_init = Raise x ->
  import_module e = (Ok p, e') ->
  is_trained (_ml_categorizer p) = false
  /\ forall description merchant_name categories,
       fst (categorize_transaction description merchant_name categories p)
       = Ok UNCATEGORIZED.
Proof.
  intros Hnofile Hinit Himport.
  unfold import_module, TransactionCategorizer_init, load_model, bind, get
    in Himport.
  cbn [self env model_path] in Himport.
  rewrite Hnofile in Himport. unfold ret in Himport.
  injection Himport as <- _.
  split; [reflexivity |].
  intros description merchant_name categories.
  rewrite (unavailable_step _ _ _ _ x) by first [exact Hinit | reflexivity].
  reflexivity.
Qed.

End SyncFacts.

(** ** Further runs on the small instance *)

Import Cases.

(** X5, witness: a dictionary without categories, loaded in full. *)
Lemma load_model_outcome_witness :
  model_path
    (self (snd (@load_model keyless_libs
                  {| self := stale keyless_libs false rent;
                     env := env_with [Init.Byte.x00]%list |})))
  = default_model_path
  /\ is_trained
       (self (snd (@load_model keyless_libs
                     {| self := stale keyless_libs false rent;
                        env := env_with [Init.Byte.x00]%list |})))
     = true.
Proof.
  destruct (@load_model_outcome keyless_libs
              {| self := stale keyless_libs false rent;
                 env := env_with [Init.Byte.x00]%list |}
              (snd (@load_model keyless_libs
                      {| self := stale keyless_libs false rent;
                         env := env_with [Init.Byte.x00]%list |})))
    as [Hpath _].
  - vm_compute. reflexivity.
  - split; [exact Hpath | vm_compute; reflexivity].
Defined.

(** X27, witness: the import on an empty disk. *)
Lemma import_module_result_witness :
  model_path (_ml_categorizer imported) = default_model_path
  /\ _hf_categorizer imported = None.
Proof.
  apply (@import_module_result offline_libs enum empty_env empty_env imported).
  vm_compute. reflexivity.
Defined.

(** X6, witness: a one-byte file at the model path. *)
Lemma load_model_unreadable_witness :
  @load_model offline_libs
    {| self := categorizer offline true gas;
       env := env_with [Init.Byte.xff]%list |}
  = (Ok tt,
     {| self := untrained_copy (categorizer offline true gas);
        env := print_line ("Error loading model: " ++ "Ran out of input")
                 (env_with [Init.Byte.xff]%list) |}).
Proof.
  apply (@load_model_unreadable offline_libs
           (categorizer offline true gas) (env_with [Init.Byte.xff]%list)
           [Init.Byte.xff]%list "Ran out of input").
  - vm_compute. reflexivity.
  - vm_compute. reflexivity.
Defined.

(** X7, witness. *)
Lemma load_model_partial_witness :
  @load_model partial_libs
    {| self := stale partial_libs false rent;
       env := env_with [Init.Byte.x00]%list |}
  = (Ok tt,
     {| self := {| model_path := default_model_path;
                   vectorizer := (true : @TfidfVectorizer partial_libs);
                   classifier := (rent : @RandomForestClassifier partial_libs);
                   is_trained := false;
                   categories := ["rent"]%list |};
        env := print_line "Error loading model: 'classifier'"
                 (env_with [Init.Byte.x00]%list) |}).
Proof.
  apply (@load_model_partial partial_libs
           (stale partial_libs false rent) (env_with [Init.Byte.x00]%list)
           [Init.Byte.x00]%list true (Some true) None).
  - vm_compute. reflexivity.
  - reflexivity.
Defined.

(** X8, witness. *)
Lemma load_model_without_categories_witness :
  @load_model keyless_libs
    {| self := stale keyless_libs false rent;
       env := env_with [Init.Byte.x00]%list |}
  = (Ok tt,
     {| self := {| model_path := default_model_path;
                   vectorizer := (true : @TfidfVectorizer keyless_libs);
                   classifier := (gas : @RandomForestClassifier keyless_libs);
                   is_trained := true;
                   categories := ["rent"]%list |};
        env := env_with [Init.Byte.x00]%list |}).
Proof.
  apply (@load_model_without_categories keyless_libs
           (stale keyless_libs false rent) (env_with [Init.Byte.x00]%list)
           [Init.Byte.x00]%list true gas true).
  - vm_compute. reflexivity.
  - reflexivity.
Defined.

(** X11, witness: retraining a categorizer whose vectorizer is fitted. *)
Lemma train_keeps_vocabulary_witness :
  vectorizer
    (self (snd (@train offline_libs (corpus 50)
                  {| self := categorizer offline true gas;
                     env := empty_env |})))
  = vectorizer (categorizer offline true gas).
Proof.
  apply (@train_keeps_vocabulary offline_libs (corpus 50)
           {| self := categorizer offline true gas; env := empty_env |}).
  reflexivity.
Defined.

(** X12, witness: training at a bare file name fails in [os.makedirs]. *)
Lemma train_os_error_leaves_trained_witness :
  is_trained
    (self (snd (@train offline_libs (corpus 50)
                  {| self := bare; env := empty_env |})))
  = true.
Proof.
  apply (@train_os_error_leaves_trained offline_libs (corpus 50)
           {| self := bare; env := empty_env |}
           (snd (@train offline_libs (corpus 50)
                   {| self := bare; env := empty_env |}))
           (FileNotFoundError "")).
  - vm_compute. reflexivity.
  - reflexivity.
Defined.

(** X13, witness: training on an empty disk at the default path. *)
Lemma train_persists_witness :
  let f' :=
    snd (@train offline_libs (corpus 50)
           {| self := categorizer offline false untrained;
              env := empty_env |}) in
  (50 <= length (corpus 50))%nat
  /\ is_trained (self f') = true
  /\ exists c2 e2,
       @TransactionCategorizer_init offline_libs enum
         (model_path (self f')) (env f')
       = (Ok c2, e2)
       /\ forall description merchant_name amount,
            @predict offline_libs enum c2 description merchant_name amount
            = @predict offline_libs enum (self f') description merchant_name
                amount.
Proof.
  intros f'.
  apply (@train_persists offline_libs enum (corpus 50)
           {| self := categorizer offline false untrained; env := empty_env |}
           f'
           {| tr_accuracy := 1.0%float;
              tr_classification_report := "precision recall f1-score";
              tr_training_samples := 40;
              tr_test_samples := 10 |}).
  - vm_compute. reflexivity.
  - intros b Hb. vm_compute in Hb. injection Hb as <-.
    vm_compute. reflexivity.
Defined.

(** X14, witness. *)
Lemma predict_batch_untrained_witness :
  exists l,
    @predict_batch offline_libs enum (corpus 3)
      {| self := categorizer offline false untrained; env := empty_env |}
    = (Ok l,
       {| self := categorizer offline false untrained; env := empty_env |})
    /\ comprehension
         (fun t =>
            @predict offline_libs enum (categorizer offline false untrained)
              (row_description t) (row_get_merchant_name t) None)
         (corpus 3)
       = Ok l
    /\ length l = length (corpus 3)
    /\ Forall (fun x => x = (@UNCATEGORIZED enum, 0.0%float)) l.
Proof.
  apply (@predict_batch_untrained offline_libs enum (corpus 3)
           {| self := categorizer offline false untrained;
              env := empty_env |}).
  reflexivity.
Defined.

(** X16, witness: the vectorizer of [unfitted] is fitted by the batch. *)
Lemma predict_batch_fits_unfitted_witness :
  vectorizer
    (self (snd (@predict_batch offline_libs enum (corpus 2)
                  {| self := unfitted; env := empty_env |})))
  = (true : @TfidfVectorizer offline_libs).
Proof.
  rewrite (@predict_batch_fits_unfitted offline_libs enum (corpus 2)
             {| self := unfitted; env := empty_env |});
    reflexivity.
Defined.

(** X18, witness. *)
Lemma fallback_category_is_named_witness :
  In "restaurants"
     [ @GROCERIES enum; @RESTAURANTS enum; @GAS enum;
       @GENERAL_MERCHANDISE enum; @UTILITIES enum; @MOVIES enum;
       @MEDICAL enum; @BANK_FEES enum; @TRAVEL enum; @EDUCATION enum;
       @CHARITY enum; @UNCATEGORIZED enum ]
  /\ In "restaurants" (@category_values enum).
Proof.
  apply (@fallback_category_is_named dining_libs enum
           (fallback_of dining dining_output)
           "STARBUCKS STORE #123" (Some "Starbucks")
           "restaurants" 0.82%float).
  vm_compute. reflexivity.
Defined.

(** X19, witness: a pipeline sure of a label that is no candidate. *)
Lemma fallback_unknown_label_witness :
  @hf_predict (libs off_list) enum (fallback_of off_list off_list_output)
    "COINBASE" None
  = Ok (@UNCATEGORIZED enum, 0.9%float).
Proof.
  apply (@fallback_unknown_label (libs off_list) enum
           (fallback_of off_list off_list_output) "COINBASE" None
           off_list_output "cryptocurrency" 0.9%float []%list []%list).
  - reflexivity.
  - reflexivity.
  - reflexivity.
  - simpl. intros H.
    repeat (destruct H as [H | H]; [discriminate H |]). exact H.
Defined.

(** X21, witness: a categorizer marked trained whose vectorizer is not
    fitted. *)
Lemma primary_failure_skips_fallback_witness :
  @categorize_transaction offline_libs enum "SHELL OIL" (Some "Shell") None
    (program_with offline unfitted None)
  = (Ok (@UNCATEGORIZED enum),
     logged ("Error in ML categorization: "
             ++ exn_str (LibraryError "The TF-IDF vectorizer is not fitted"))
       (program_with offline unfitted None)).
Proof.
  apply (@primary_failure_skips_fallback offline_libs enum
           "SHELL OIL" (Some "Shell") None
           (program_with offline unfitted None)
           (LibraryError "The TF-IDF vectorizer is not fitted")).
  - reflexivity.
  - vm_compute. reflexivity.
Defined.

(** X22, witness. *)
Lemma empty_pipeline_output_witness :
  @categorize_transaction (libs silent) enum "SHELL OIL" (Some "Shell") None
    (program_with silent (categorizer silent false untrained)
       (Some (fallback_of silent silent_output)))
  = (Ok (@UNCATEGORIZED enum),
     logged "Error in ML categorization: list index out of range"
       (program_with silent (categorizer silent false untrained)
          (Some (fallback_of silent silent_output)))).
Proof.
  apply (@empty_pipeline_output (libs silent) enum
           "SHELL OIL" (Some "Shell") None
           (program_with silent (categorizer silent false untrained)
              (Some (fallback_of silent silent_output)))
           (fallback_of silent silent_output) silent_output);
    reflexivity.
Defined.

(** X23, witness. *)
Lemma untrained_primary_yields_named_category_witness :
  exists v p',
    @categorize_transaction dining_libs enum
      "STARBUCKS STORE #123" (Some "Starbucks") (Some []%list)
      (program dining false untrained)
    = (Ok v, p')
    /\ In v [ @GROCERIES enum; @RESTAURANTS enum; @GAS enum;
              @GENERAL_MERCHANDISE enum; @UTILITIES enum; @MOVIES enum;
              @MEDICAL enum; @BANK_FEES enum; @TRAVEL enum; @EDUCATION enum;
              @CHARITY enum; @UNCATEGORIZED enum ].
Proof.
  apply (@untrained_primary_yields_named_category dining_libs enum
           "STARBUCKS STORE #123" (Some "Starbucks") (Some []%list)
           (program dining false untrained)).
  reflexivity.
Defined.

(** X26, witness: three transactions, three attempts, three lines. *)
Lemma construction_is_retried_witness :
  @categorize_each offline_libs enum response (program offline false untrained)
  = (Ok (map (fun _ => @UNCATEGORIZED enum) response),
     after_failures
       ("Could not initialize HuggingFace categorizer: "
        ++ exn_str (LibraryError
                      "Can't load the model for 'facebook/bart-large-mnli'"))
       (length response) (program offline false untrained)).
Proof.
  apply (@construction_is_retried offline_libs enum response
           (program offline false untrained)
           (LibraryError
              "Can't load the model for 'facebook/bart-large-mnli'"));
    reflexivity.
Defined.

(** X28, witness: an empty disk and no model hub. *)
Lemma cold_start_without_models_witness :
  is_trained (_ml_categorizer imported) = false
  /\ forall description merchant_name categories,
       fst (@categorize_transaction offline_libs enum
              description merchant_name categories imported)
       = Ok (@UNCATEGORIZED enum).
Proof.
  apply (@cold_start_without_models offline_libs enum empty_env empty_env
           imported
           (LibraryError
              "Can't load the model for 'facebook/bart-large-mnli'")).
  - vm_compute. reflexivity.
  - reflexivity.
  - vm_compute. reflexivity.
Defined.
